(** * The library catalogue of src/main.py

    A shallow embedding of the two classes of the program, [Book] and
    [Library], and the properties of its specification.

    - Python values are the type [value]; a [Book] keeps five of them, as
      the attributes of the Python object do (nothing in the program checks
      their types).  A text is kept as the bytes of its UTF-8 form; a lone
      surrogate, which a str can hold and UTF-8 refuses, as the three bytes
      ED A0..BF 80..BF of its generalised form.
    - [str.isdigit], [int], [str.lower] and the [repr] of containers are
      the runtime's, and parameters here: what is proved holds whatever they
      are.  Instances on ASCII text serve for the sample data.
    - Exceptions are the type [exn]; a computation that may raise returns a
      [result].
    - The methods of [Library] are computations in the monad [M]: they take
      the object (with the content of its storage file and what has been
      printed so far) and give a result and the object afterwards. *)

From Stdlib Require Import ZArith String Ascii List Bool Lia.
From Stdlib Require Import DecimalString DecimalPos.
Import ListNotations.

Local Open Scope string_scope.
Local Open Scope list_scope.
Local Open Scope Z_scope.

Set Warnings "-register-all".

(** ** Python values and the operations of the runtime the program uses *)

Module Py.

(** What [json.load] can deliver, and so what an attribute of a [Book] can
    hold.  Numbers are the integers: floating point numbers are outside the
    model.  A dict is kept as its list of items. *)
Inductive value : Type :=
| VNone
| VBool (b : bool)
| VInt (z : Z)
| VStr (s : string)
| VList (l : list value)
| VDict (d : list (string * value)).

Inductive exn : Type :=
| ValueError
| KeyError (key : string)
| TypeError
| AttributeError (name : string)
| FileNotFoundError
| JSONDecodeError
| UnicodeDecodeError
| UnicodeEncodeError
| RecursionError
| PermissionError.

Inductive result (A : Type) : Type :=
| Ok (a : A)
| Raise (e : exn).
Arguments Ok {A} a.
Arguments Raise {A} e.

Definition rbind {A B : Type} (r : result A) (k : A -> result B) : result B :=
  match r with
  | Ok a => k a
  | Raise e => Raise e
  end.

(** [[f(x) for x in l]]: the first exception ends the comprehension. *)
Fixpoint rmap {A B : Type} (f : A -> result B) (l : list A) : result (list B) :=
  match l with
  | [] => Ok []
  | x :: l' => rbind (f x) (fun y => rbind (rmap f l') (fun ys => Ok (y :: ys)))
  end.

(** [d[key]] on a dict. *)
Fixpoint dict_get (d : list (string * value)) (key : string) : result value :=
  match d with
  | [] => Raise (KeyError key)
  | (k, v) :: d' => if String.eqb k key then Ok v else dict_get d' key
  end.

(** [data[key]] with a [str] key: only a dict can be indexed so. *)
Definition subscript (data : value) (key : string) : result value :=
  match data with
  | VDict d => dict_get d key
  | _ => Raise TypeError
  end.

(** The integer a value stands for in arithmetic and comparisons: [bool] is
    a subclass of [int]. *)
Definition as_int (v : value) : option Z :=
  match v with
  | VInt z => Some z
  | VBool b => Some (Z.b2z b)
  | _ => None
  end.

(** [v == n] for an [int] n. *)
Definition eq_int (v : value) (n : Z) : bool :=
  match as_int v with
  | Some z => z =? n
  | None => false
  end.

(** [str(n)] for an [int]. *)
Definition str_int (n : Z) : string := NilZero.string_of_int (Z.to_int n).

(** Digits on ASCII text: not empty and every character one of 0..9. *)
Definition is_digit (c : ascii) : bool :=
  ((48 <=? nat_of_ascii c) && (nat_of_ascii c <=? 57))%nat.

Fixpoint all_digits (s : string) : bool :=
  match s with
  | EmptyString => true
  | String c s' => is_digit c && all_digits s'
  end.

Definition ascii_isdigit (s : string) : bool :=
  match s with
  | EmptyString => false
  | _ => all_digits s
  end.

(** The number a string of ASCII digits denotes: the digits read in base
    ten, from the left. *)
Definition digit_val (c : ascii) : Z := Z.of_nat (nat_of_ascii c) - 48.

Fixpoint int_acc (s : string) (acc : Z) : Z :=
  match s with
  | EmptyString => acc
  | String c s' => int_acc s' (10 * acc + digit_val c)
  end.

Definition digits_value (s : string) : Z := int_acc s 0.

(** An instance of [int] on strings of ASCII digits ([None] stands for the
    ValueError of [int]). *)
Definition ascii_int (s : string) : option Z :=
  if ascii_isdigit s then Some (digits_value s) else None.

(** Every character is ASCII. *)
Definition is_ascii (s : string) : bool :=
  forallb (fun c => (nat_of_ascii c <? 128)%nat) (list_ascii_of_string s).

(** What [str.isdigit] and [int] of the runtime do on ASCII text: on it
    [isdigit] tells the strings of digits; [int] of a string of digits is
    the number it denotes when it returns, and it returns for a string of
    at most 4300 digits (beyond, it depends on the version). *)
Definition ascii_runtime (isdigit : string -> bool) (int : string -> option Z)
    : Prop :=
  (forall s, is_ascii s = true -> isdigit s = ascii_isdigit s) /\
  (forall s n, ascii_isdigit s = true -> int s = Some n -> n = digits_value s) /\
  (forall s, ascii_isdigit s = true -> (String.length s <= 4300)%nat ->
             int s = Some (digits_value s)).

(** The texts a file written as UTF-8 takes: those without a surrogate
    (the byte ED followed by a byte A0..BF). *)
Fixpoint encodable (s : string) : bool :=
  match s with
  | String c s' =>
      match s' with
      | String c' _ =>
          if ((nat_of_ascii c =? 237) && (160 <=? nat_of_ascii c'))%nat
          then false
          else encodable s'
      | EmptyString => true
      end
  | EmptyString => true
  end.

(** Every text in the value, keys of dicts too, is encodable. *)
Fixpoint value_encodable (v : value) : bool :=
  match v with
  | VStr s => encodable s
  | VList l => forallb value_encodable l
  | VDict d =>
      forallb (fun kv => encodable (fst kv) && value_encodable (snd kv)) d
  | VNone | VBool _ | VInt _ => true
  end.

(** [s.lower()] on ASCII text; an instance of the [lower] the search is
    parameterised by. *)
Definition lower_char (c : ascii) : ascii :=
  let n := nat_of_ascii c in
  if ((65 <=? n) && (n <=? 90))%nat then ascii_of_nat (n + 32) else c.

Fixpoint ascii_lower (s : string) : string :=
  match s with
  | EmptyString => EmptyString
  | String c s' => String (lower_char c) (ascii_lower s')
  end.

Section Str.
(** [repr] of a list or a dict is left to the runtime. *)
Variable repr : value -> string.

(** [str(v)]. *)
Definition str (v : value) : string :=
  match v with
  | VNone => "None"
  | VBool true => "True"
  | VBool false => "False"
  | VInt z => str_int z
  | VStr s => s
  | VList _ | VDict _ => repr v
  end.
End Str.

End Py.

Import Py.

Declare Scope result_scope.
Delimit Scope result_scope with res.
Notation "x <- r ;; k" := (rbind r (fun x => k))
  (at level 61, r at next level, right associativity) : result_scope.

(** ** class Book *)

Module Book.

Record t : Type := mk {
  id : value;
  title : value;
  author : value;
  year : value;
  status : value
}.

(** The two values of a book's status. *)
Definition available : string := "в наличии".
Definition checked_out : string := "выдана".

(** [Book(book_id, title, author, year)] *)
Definition init (book_id title author year : value) : t :=
  mk book_id title author year (VStr available).

(** [book.status = s] *)
Definition set_status (book : t) (s : value) : t :=
  mk (id book) (title book) (author book) (year book) s.

Definition to_dict (self : t) : value :=
  VDict [("id", id self); ("title", title self); ("author", author self);
         ("year", year self); ("status", status self)].

Local Open Scope result_scope.

Definition from_dict (data : value) : result t :=
  book_id <- subscript data "id" ;;
  title <- subscript data "title" ;;
  author <- subscript data "author" ;;
  year <- subscript data "year" ;;
  let book := init book_id title author year in
  status <- subscript data "status" ;;
  Ok (set_status book status).

(** [json.dump] can write the dict of the book. *)
Definition encodable (self : t) : bool := value_encodable (to_dict self).

(** [getattr(book, key)], for the data attributes of the object (the
    methods and the attributes of the class are not modelled). *)
Definition getattr (book : t) (key : string) : result value :=
  if String.eqb key "id" then Ok (id book)
  else if String.eqb key "title" then Ok (title book)
  else if String.eqb key "author" then Ok (author book)
  else if String.eqb key "year" then Ok (year book)
  else if String.eqb key "status" then Ok (status book)
  else Raise (AttributeError key).

End Book.

(** ** class Library *)

Module Library.

(** What the file named by [storage_file] holds: no such file, a text that
    is not JSON, the JSON value it encodes, or something that opening or
    reading raises [e] on (bytes that are not UTF-8: UnicodeDecodeError;
    JSON nested too deep: RecursionError; no right to read:
    PermissionError). *)
Inductive file : Type :=
| Missing
| Garbled
| Json (data : value)
| Unreadable (e : exn).

(** What the program prints, a constructor for each [print] of the class. *)
Inductive message : Type :=
| MsgLoadError                       (* "Ошибка чтения файла данных. Файл будет перезаписан." *)
| MsgError (e : exn)                 (* print(e): "Некорректный год. Укажите год ..." *)
| MsgAdded (title : string)          (* "Книга '{title}' успешно добавлена." *)
| MsgRemoved (book_id : Z)           (* "Книга с ID {book_id} успешно удалена." *)
| MsgNotFound (book_id : Z)          (* "Книга с ID {book_id} не найдена." *)
| MsgFound                           (* "Найденные книги:" *)
| MsgBook (book : Book.t)            (* print(book) *)
| MsgNoneFound                       (* "Книги не найдены." *)
| MsgStatusUpdated (title : value) (book_id : Z) (new_status : string)
                                     (* "Статус книги '{book.title}' с ID {book_id} успешно обновлён на '{new_status}'." *)
| MsgInvalidStatus                   (* "Недопустимый статус. Используйте 'в наличии' или 'выдана'." *)
| MsgSaveError.                      (* "Ошибка сохранения книги из-за некорректных символов в данных." *)

Record t : Type := mk {
  storage_file : file;
  books : list Book.t;
  next_id : Z;
  stdout : list message
}.

Definition set_storage_file (self : t) (f : file) : t :=
  mk f (books self) (next_id self) (stdout self).
Definition set_books (self : t) (bs : list Book.t) : t :=
  mk (storage_file self) bs (next_id self) (stdout self).
Definition set_next_id (self : t) (n : Z) : t :=
  mk (storage_file self) (books self) n (stdout self).
Definition set_stdout (self : t) (out : list message) : t :=
  mk (storage_file self) (books self) (next_id self) out.

(** *** The monad of the methods *)

Definition M (A : Type) : Type := t -> result A * t.

Definition ret {A : Type} (a : A) : M A := fun self => (Ok a, self).

Definition raise {A : Type} (e : exn) : M A := fun self => (Raise e, self).

Definition bind {A B : Type} (m : M A) (k : A -> M B) : M B :=
  fun self =>
    match m self with
    | (Ok a, self') => k a self'
    | (Raise e, self') => (Raise e, self')
    end.

Definition get : M t := fun self => (Ok self, self).

Definition modify (f : t -> t) : M unit := fun self => (Ok tt, f self).

(** [try: body except E as e: handler], for the exceptions [catches]
    accepts. *)
Definition try_except (body : M unit) (catches : exn -> bool)
    (handler : exn -> M unit) : M unit :=
  fun self =>
    match body self with
    | (Raise e, self') =>
        if catches e then handler e self' else (Raise e, self')
    | r => r
    end.

Definition print (m : message) : M unit :=
  modify (fun self => set_stdout self (stdout self ++ [m])).

Declare Scope lib_scope.
Delimit Scope lib_scope with lib.
Notation "x <- m ;; k" := (bind m (fun x => k))
  (at level 61, m at next level, right associativity) : lib_scope.
Notation "m ;;; k" := (bind m (fun _ => k))
  (at level 61, right associativity) : lib_scope.

(** [except ValueError] catches its subclasses too. *)
Definition is_ValueError (e : exn) : bool :=
  match e with
  | ValueError | JSONDecodeError | UnicodeDecodeError | UnicodeEncodeError => true
  | _ => false
  end.

Definition is_UnicodeEncodeError (e : exn) : bool :=
  match e with UnicodeEncodeError => true | _ => false end.

(** *** load_books *)

(** [json.load(file)] after [open(storage_file, "r")]. *)
Definition json_load (f : file) : result value :=
  match f with
  | Missing => Raise FileNotFoundError
  | Garbled => Raise JSONDecodeError
  | Json data => Ok data
  | Unreadable e => Raise e
  end.

(** The items [for book in data] goes through: the elements of a list, the
    keys of a dict, the characters of a str (a str per byte here; none of
    them is a dict).  Nothing else can be iterated. *)
Definition iterate (data : value) : result (list value) :=
  match data with
  | VList l => Ok l
  | VDict d => Ok (map (fun kv => VStr (fst kv)) d)
  | VStr s => Ok (map (fun c => VStr (String c EmptyString)) (list_ascii_of_string s))
  | VNone | VBool _ | VInt _ => Raise TypeError
  end.

Definition load_books (f : file) : result (list Book.t) * list message :=
  match (data <- json_load f ;;
         items <- iterate data ;;
         rmap Book.from_dict items)%res with
  | Raise FileNotFoundError => (Ok [], [])
  | Raise JSONDecodeError => (Ok [], [MsgLoadError])
  | r => (r, [])
  end.

(** *** save_books *)

(** The file that holds the JSON of the dicts of the books. *)
Definition dump (bs : list Book.t) : file := Json (VList (map Book.to_dict bs)).

(** Every text of every book can be written. *)
Definition writable (bs : list Book.t) : bool := forallb Book.encodable bs.

(** [open(storage_file, "w")] and [json.dump] of the dicts of the books.
    When a text cannot be encoded the write raises UnicodeEncodeError on
    the way, and the file, emptied when it was opened, is left with the
    beginning of the JSON text: a text that is not JSON. *)
Definition json_dump (bs : list Book.t) : M unit :=
  fun self =>
    if writable bs then (Ok tt, set_storage_file self (dump bs))
    else (Raise UnicodeEncodeError, set_storage_file self Garbled).

Definition save_books : M unit :=
  try_except
    (bind get (fun self => json_dump (books self)))
    is_UnicodeEncodeError
    (fun _ => print MsgSaveError).

(** *** get_next_id *)

Fixpoint ints (l : list value) : option (list Z) :=
  match l with
  | [] => Some []
  | v :: l' =>
      match as_int v, ints l' with
      | Some z, Some zs => Some (z :: zs)
      | _, _ => None
      end
  end.

(** [max] of a sequence that starts with [z]. *)
Definition max_from (z : Z) (zs : list Z) : Z := fold_left Z.max zs z.

(** [max(book.id for book in self.books) + 1], on the values of the
    model.  With an id that is not an integer the expression raises
    TypeError: either [max] does, comparing it with another id, or [+ 1]
    does on the str, list, dict or None that [max] returns.  (For ids that
    are floating point numbers, which the model leaves out, the code
    returns a float; what is proved about the counter is proved for
    integer ids.) *)
Definition get_next_id (bs : list Book.t) : result Z :=
  match bs with
  | [] => Ok 1
  | _ =>
      match ints (map Book.id bs) with
      | Some (z :: zs) => Ok (max_from z zs + 1)
      | _ => Raise TypeError
      end
  end.

(** *** __init__ *)

Definition init (f : file) : result t :=
  let (loaded, out) := load_books f in
  (bs <- loaded ;;
   n <- get_next_id bs ;;
   Ok (mk f bs n out))%res.

Local Open Scope lib_scope.

Section Runtime.
(** [str.isdigit] and [int] of the runtime; [int] gives [None] where it
    raises ValueError. *)
Variable isdigit : string -> bool.
Variable int : string -> option Z.

(** [int(year)] *)
Definition int_of (year : string) : M Z :=
  match int year with
  | Some n => ret n
  | None => raise ValueError
  end.

(** *** validate_year: [now] is [datetime.now().year] *)

(** [not year.isdigit() or not (0 < int(year) <= current_year)]: [int] is
    not called on a text that [isdigit] refuses. *)
Definition validate_year (now : Z) (year : string) : M unit :=
  if negb (isdigit year) then raise ValueError
  else
    n <- int_of year ;;
    if negb ((0 <? n) && (n <=? now)) then raise ValueError else ret tt.

(** *** add_book *)

Definition add_book (now : Z) (title author year : string) : M unit :=
  try_except
    (validate_year now year ;;;
     self <- get ;;
     n <- int_of year ;;
     let book := Book.init (VInt (next_id self)) (VStr title) (VStr author)
                           (VInt n) in
     modify (fun self => set_books self (books self ++ [book])) ;;;
     modify (fun self => set_next_id self (next_id self + 1)) ;;;
     save_books ;;;
     print (MsgAdded title))
    is_ValueError
    (fun e => print (MsgError e)).

End Runtime.

(** *** The loop [for book in self.books: if book.id == book_id: ...] *)

(** The books met before the first one whose id equals [book_id], that
    book, and the books after it. *)
Fixpoint find_book (book_id : Z) (bs : list Book.t)
    : option (list Book.t * Book.t * list Book.t) :=
  match bs with
  | [] => None
  | book :: bs' =>
      if eq_int (Book.id book) book_id then Some ([], book, bs')
      else
        match find_book book_id bs' with
        | Some (before, found, after) => Some (book :: before, found, after)
        | None => None
        end
  end.

(** *** remove_book: [self.books.remove(book)] takes that very object out
    of the list *)

Definition remove_book (book_id : Z) : M unit :=
  self <- get ;;
  match find_book book_id (books self) with
  | Some (before, book, after) =>
      modify (fun self => set_books self (before ++ after)) ;;;
      save_books ;;;
      print (MsgRemoved book_id)
  | None => print (MsgNotFound book_id)
  end.

(** *** update_status: [book.status = new_status] changes the object where
    it stands in the list *)

Definition valid_status (new_status : string) : bool :=
  String.eqb new_status Book.available || String.eqb new_status Book.checked_out.

Definition update_status (book_id : Z) (new_status : string) : M unit :=
  self <- get ;;
  match find_book book_id (books self) with
  | Some (before, book, after) =>
      if valid_status new_status then
        modify (fun self =>
          set_books self
            (before ++ Book.set_status book (VStr new_status) :: after)) ;;;
        save_books ;;;
        print (MsgStatusUpdated (Book.title book) book_id new_status)
      else print MsgInvalidStatus
  | None => print (MsgNotFound book_id)
  end.

(** *** search_books *)

Section Search.
(** [str.lower] and the [repr] of containers belong to the runtime. *)
Variable lower : string -> string.
Variable repr : value -> string.

(** [str(getattr(book, key)).lower() == str(value).lower()] *)
Definition criterion (book : Book.t) (kv : string * value) : result bool :=
  (v <- Book.getattr book (fst kv) ;;
   Ok (String.eqb (lower (str repr v)) (lower (str repr (snd kv)))))%res.

(** [any(... for key, value in kwargs.items())]: stops at the first
    criterion that holds. *)
Fixpoint any_criterion (book : Book.t) (kwargs : list (string * value))
    : result bool :=
  match kwargs with
  | [] => Ok false
  | kv :: kwargs' =>
      (b <- criterion book kv ;;
       if b then Ok true else any_criterion book kwargs')%res
  end.

(** The loop that fills [results]. *)
Fixpoint search_loop (bs : list Book.t) (kwargs : list (string * value))
    (results : list Book.t) : result (list Book.t) :=
  match bs with
  | [] => Ok results
  | book :: bs' =>
      (b <- any_criterion book kwargs ;;
       search_loop bs' kwargs (if b then results ++ [book] else results))%res
  end.

(** The value of [results] when the loop is over. *)
Definition search_results (bs : list Book.t) (kwargs : list (string * value))
    : result (list Book.t) :=
  search_loop bs kwargs [].

Fixpoint print_books (bs : list Book.t) : M unit :=
  match bs with
  | [] => ret tt
  | book :: bs' => print (MsgBook book) ;;; print_books bs'
  end.

Definition search_books (kwargs : list (string * value)) : M unit :=
  self <- get ;;
  match search_results (books self) kwargs with
  | Raise e => raise e
  | Ok results =>
      match results with
      | [] => print MsgNoneFound
      | _ => print MsgFound ;;; print_books results
      end
  end.
End Search.

End Library.

(** ** The words of the specification *)

Module Spec.

(** The field names of a record. *)
Definition fields : list string := ["id"; "title"; "author"; "year"; "status"].

(** [m] is the greatest of [zs]. *)
Definition greatest (m : Z) (zs : list Z) : Prop :=
  In m zs /\ forall z, In z zs -> z <= m.

(** The text [year] is one the runtime takes for digits and reads as the
    number [n]. *)
Definition denotes (isdigit : string -> bool) (int : string -> option Z)
    (year : string) (n : Z) : Prop :=
  isdigit year = true /\ int year = Some n.

(** The number [add_book] accepts the text as, at the year [now] of the
    clock, when it does. *)
Definition accepted (isdigit : string -> bool) (int : string -> option Z)
    (now : Z) (year : string) : option Z :=
  if isdigit year then
    match int year with
    | Some n => if (0 <? n) && (n <=? now) then Some n else None
    | None => None
    end
  else None.

(** What [save_books] leaves in the file for the books [bs], and what it
    prints. *)
Definition saved_file (bs : list Book.t) : Library.file :=
  if Library.writable bs then Library.Json (VList (map Book.to_dict bs))
  else Library.Garbled.

Definition saved_output (bs : list Book.t) : list Library.message :=
  if Library.writable bs then [] else [Library.MsgSaveError].

(** A text of digits: not empty, every character one of 0..9. *)
Definition digit_string (y : string) : Prop :=
  y <> "" /\
  forall c, In c (list_ascii_of_string y) -> (48 <= nat_of_ascii c <= 57)%nat.

Section Search.
Variable lower : string -> string.
Variable repr : value -> string.

(** A criterion matches a record when its value, as text without regard to
    case, equals the text of the record's field of that name. *)
Definition matches (book : Book.t) (key : string) (v : value) : Prop :=
  exists x, Book.getattr book key = Ok x /\
            lower (str repr x) = lower (str repr v).

Definition matchesb (book : Book.t) (kv : string * value) : bool :=
  match Book.getattr book (fst kv) with
  | Ok x => String.eqb (lower (str repr x)) (lower (str repr (snd kv)))
  | Raise _ => false
  end.

(** A record is selected when at least one criterion matches it. *)
Definition selected (kwargs : list (string * value)) (book : Book.t) : bool :=
  existsb (matchesb book) kwargs.
End Search.

(** What a search prints for [results]. *)
Definition report (results : list Book.t) : list Library.message :=
  match results with
  | [] => [Library.MsgNoneFound]
  | _ => Library.MsgFound :: map Library.MsgBook results
  end.

End Spec.

(** ** The states the operations lead to *)

Module Run.

(** One operation on the catalogue; [add_book] reads the year of the clock
    at the time of the call, and is taken for whatever [isdigit] and [int]
    the runtime has. *)
Inductive step : Library.t -> Library.t -> Prop :=
| step_add (isdigit : string -> bool) (int : string -> option Z)
    (now : Z) (title author year : string) (self : Library.t) :
    step self (snd (Library.add_book isdigit int now title author year self))
| step_remove (book_id : Z) (self : Library.t) :
    step self (snd (Library.remove_book book_id self))
| step_update (book_id : Z) (new_status : string) (self : Library.t) :
    step self (snd (Library.update_status book_id new_status self)).

(** The states reached from [start] by any sequence of operations. *)
Inductive reachable (start : Library.t) : Library.t -> Prop :=
| reach_start : reachable start start
| reach_step (self self' : Library.t) :
    reachable start self -> step self self' -> reachable start self'.

(** The ids of the books as integers, when they all are integers (a bool
    is the integer 0 or 1). *)
Definition id_numbers (bs : list Book.t) : option (list Z) :=
  Library.ints (map Book.id bs).

(** The ids of the books are integers, no two of them equal. *)
Definition distinct_ids (bs : list Book.t) : Prop :=
  exists zs, id_numbers bs = Some zs /\ NoDup zs.

(** The ids are integers, no two of them equal, and all below the
    counter. *)
Definition invariant (self : Library.t) : Prop :=
  exists zs,
    id_numbers (Library.books self) = Some zs /\
    NoDup zs /\
    forall z, In z zs -> z < Library.next_id self.

End Run.

(** ** Sample data *)

Module Sample.

Definition dune : Book.t :=
  Book.mk (VInt 1) (VStr "Dune") (VStr "Herbert") (VInt 1965) (VStr Book.available).
Definition emma : Book.t :=
  Book.mk (VInt 2) (VStr "Emma") (VStr "Austen") (VInt 1815) (VStr Book.checked_out).
Definition ulysses : Book.t :=
  Book.mk (VInt 5) (VStr "Ulysses") (VStr "Joyce") (VInt 1922) (VStr Book.available).

(** Three books; the ids have a gap and are not in order. *)
Definition shelf : list Book.t := [dune; ulysses; emma].

Definition stored : Library.file := Library.dump shelf.

Definition library : Library.t := Library.mk stored shelf 6 [].

(** A store with the same id twice. *)
Definition twice : Library.file := Library.dump [dune; dune].

Definition dune_dict : value := Book.to_dict dune.

(** An entry whose five values all have another type than a book's. *)
Definition mistyped : value :=
  VDict [("id", VStr "one"); ("title", VInt 3); ("author", VNone);
         ("year", VStr "1965"); ("status", VInt 7)].

(** An entry without a status. *)
Definition no_status : value :=
  VDict [("id", VInt 1); ("title", VStr "Dune"); ("author", VStr "Herbert");
         ("year", VInt 1965)].

(** [repr] is not needed for the sample data. *)
Definition no_repr (v : value) : string := "".

(** Two criteria: the first matches [dune] only, the second [emma] only. *)
Definition criteria : list (string * value) :=
  [("title", VStr "DUNE"); ("author", VStr "austen")].

(** The library after [ulysses] is removed and then added again. *)
Definition later : Library.t :=
  snd (Library.add_book Py.ascii_isdigit Py.ascii_int 2025 "Ulysses" "Joyce" "1922"
         (snd (Library.remove_book 5 library))).

End Sample.

(** ** The search of the menu *)

Module Menu.

(** The criteria [main] builds from the three texts the user typed:
    [{key: value for key, value in
      {"title": title, "author": author, "year": year}.items() if value}],
    handed to [search_books] as its keyword arguments. *)
Definition criteria (title author year : string) : list (string * value) :=
  map (fun kv => (fst kv, VStr (snd kv)))
      (filter (fun kv => negb (String.eqb (snd kv) ""))
              [("title", title); ("author", author); ("year", year)]).

End Menu.

(** ** Further invariants of the catalogue *)

Module Inv.

(** Every id is an integer. *)
Definition numeric_ids (self : Library.t) : Prop :=
  exists zs, Run.id_numbers (Library.books self) = Some zs.

(** Loading the storage file gives the books the library holds. *)
Definition reloads (self : Library.t) : Prop :=
  fst (Library.load_books (Library.storage_file self)) = Ok (Library.books self).

(** Every status is one of the two. *)
Definition valid_statuses (bs : list Book.t) : Prop :=
  forall b, In b bs ->
    Book.status b = VStr Book.available \/ Book.status b = VStr Book.checked_out.

(** A book as [add_book] makes them: a positive integer id, a title and an
    author that are texts, a positive integer year, one of the two
    statuses. *)
Definition well_formed (b : Book.t) : Prop :=
  (exists i, Book.id b = VInt i /\ 0 < i) /\
  (exists t, Book.title b = VStr t) /\
  (exists a, Book.author b = VStr a) /\
  (exists y, Book.year b = VInt y /\ 0 < y) /\
  (Book.status b = VStr Book.available \/ Book.status b = VStr Book.checked_out).

End Inv.

(** ** More sample data *)

Module Shelf.

(** The entry of [Sample.dune] with a key more, as a store written by hand
    may have it. *)
Definition annotated : list (string * value) :=
  [("shelf", VInt 3); ("id", VInt 1); ("title", VStr "Dune");
   ("author", VStr "Herbert"); ("year", VInt 1965);
   ("status", VStr Book.available)].

(** A title that is a lone surrogate, U+D800: a text [input] can deliver
    and [json.load] too. *)
Definition surrogate : string :=
  String (ascii_of_nat 237) (String (ascii_of_nat 160)
    (String (ascii_of_nat 128) EmptyString)).

(** A book with that title, and a library that loaded it from its store. *)
Definition untitled : Book.t :=
  Book.mk (VInt 1) (VStr surrogate) (VStr "Herbert") (VInt 1965)
          (VStr Book.available).

Definition loaded : Library.t :=
  Library.mk (Library.dump [untitled]) [untitled] 2 [].

(** A library on no file yet. *)
Definition fresh : Library.t := Library.mk Library.Missing [] 1 [].

End Shelf.

(** ** Properties *)

(** *** Book *)

Lemma from_dict_to_dict_ok (book : Book.t) :
  Book.from_dict (Book.to_dict book) = Ok book.
Proof. destruct book as [i t a y s]. reflexivity. Qed.

(** C8: for every book, whatever its five attributes hold (a status other
    than the default one too), [from_dict] of its [to_dict] succeeds and
    gives the book back, attribute by attribute. *)
Theorem from_dict_to_dict (book : Book.t) :
  Book.from_dict (Book.to_dict book) = Ok book /\
  exists book',
    Book.from_dict (Book.to_dict book) = Ok book' /\
    Book.id book' = Book.id book /\
    Book.title book' = Book.title book /\
    Book.author book' = Book.author book /\
    Book.year book' = Book.year book /\
    Book.status book' = Book.status book.
Proof.
  split; [apply from_dict_to_dict_ok|].
  exists book. split; [apply from_dict_to_dict_ok|].
  repeat split.
Qed.

(** *** get_next_id *)

Lemma ints_VInt (zs : list Z) : Library.ints (map VInt zs) = Some zs.
Proof.
  induction zs as [|z zs IH]; simpl; [reflexivity|].
  now rewrite IH.
Qed.

Lemma max_from_greatest (zs : list Z) (z : Z) :
  Spec.greatest (Library.max_from z zs) (z :: zs).
Proof.
  unfold Spec.greatest, Library.max_from.
  revert z; induction zs as [|y zs IH]; intros z; simpl.
  - split; [now left|]. intros x [->|[]]; lia.
  - destruct (IH (Z.max z y)) as [Hin Hle]. split.
    + destruct Hin as [Hm|Hin].
      * rewrite <- Hm.
        destruct (Z.max_spec z y) as [[_ E]|[_ E]]; rewrite E.
        -- right; left; reflexivity.
        -- left; reflexivity.
      * right; right; exact Hin.
    + intros x [->|[->|Hx]].
      * specialize (Hle (Z.max x y) (or_introl eq_refl)); lia.
      * specialize (Hle (Z.max z x) (or_introl eq_refl)); lia.
      * apply Hle; right; exact Hx.
Qed.

(** C7: on an empty list of books [get_next_id] returns 1; on books with
    the integer ids [zs] it returns [m + 1] for [m] the greatest of [zs]. *)
Theorem get_next_id_spec (bs : list Book.t) (zs : list Z)
    (Hids : map Book.id bs = map VInt zs) :
  match zs with
  | [] => bs = [] /\ Library.get_next_id bs = Ok 1
  | _ => exists m, Spec.greatest m zs /\ Library.get_next_id bs = Ok (m + 1)
  end.
Proof.
  destruct zs as [|z zs].
  - destruct bs; [split; reflexivity | discriminate].
  - exists (Library.max_from z zs). split; [apply max_from_greatest|].
    unfold Library.get_next_id.
    rewrite Hids, ints_VInt.
    destruct bs; [discriminate | reflexivity].
Qed.

(** *** search_books *)

Section SearchFacts.
Variable lower : string -> string.
Variable repr : value -> string.

Lemma getattr_field (book : Book.t) (key : string) :
  In key Spec.fields -> exists x, Book.getattr book key = Ok x.
Proof.
  unfold Spec.fields; simpl.
  intros [<-|[<-|[<-|[<-|[<-|[]]]]]]; eexists; reflexivity.
Qed.

Lemma criterion_matchesb (book : Book.t) (kv : string * value) :
  In (fst kv) Spec.fields ->
  Library.criterion lower repr book kv = Ok (Spec.matchesb lower repr book kv).
Proof.
  intros Hk. destruct (getattr_field book _ Hk) as [x Hx].
  unfold Library.criterion, Spec.matchesb. now rewrite Hx.
Qed.

Lemma any_criterion_selected (book : Book.t) (kwargs : list (string * value)) :
  (forall kv, In kv kwargs -> In (fst kv) Spec.fields) ->
  Library.any_criterion lower repr book kwargs
  = Ok (Spec.selected lower repr kwargs book).
Proof.
  induction kwargs as [|kv kwargs IH]; intros Hkeys; simpl; [reflexivity|].
  rewrite criterion_matchesb by (apply Hkeys; now left). simpl.
  destruct (Spec.matchesb lower repr book kv); [reflexivity|].
  apply IH. intros kv' Hin. apply Hkeys. now right.
Qed.

Lemma search_loop_filter (kwargs : list (string * value)) :
  (forall kv, In kv kwargs -> In (fst kv) Spec.fields) ->
  forall bs results,
    Library.search_loop lower repr bs kwargs results
    = Ok (results ++ filter (Spec.selected lower repr kwargs) bs).
Proof.
  intros Hkeys. induction bs as [|book bs IH]; intros results; simpl.
  - now rewrite app_nil_r.
  - rewrite any_criterion_selected by exact Hkeys. simpl.
    rewrite IH.
    destruct (Spec.selected lower repr kwargs book); [|reflexivity].
    now rewrite <- app_assoc.
Qed.

Lemma selected_iff (kwargs : list (string * value)) (book : Book.t) :
  Spec.selected lower repr kwargs book = true <->
  exists k v, In (k, v) kwargs /\ Spec.matches lower repr book k v.
Proof.
  unfold Spec.selected, Spec.matches. rewrite existsb_exists. split.
  - intros [[k v] [Hin Hm]]. exists k, v. split; [exact Hin|].
    unfold Spec.matchesb in Hm. simpl in Hm.
    destruct (Book.getattr book k) as [x|e]; [|discriminate].
    exists x. split; [reflexivity|]. now apply String.eqb_eq.
  - intros (k & v & Hin & x & Hx & Heq). exists (k, v). split; [exact Hin|].
    unfold Spec.matchesb. simpl. rewrite Hx. now apply String.eqb_eq.
Qed.

Lemma print_books_stdout (bs : list Book.t) (self : Library.t) :
  Library.print_books bs self
  = (Ok tt, Library.set_stdout self
              (Library.stdout self ++ map Library.MsgBook bs)).
Proof.
  revert self. induction bs as [|book bs IH]; intros self; simpl.
  - unfold Library.ret. rewrite app_nil_r. now destruct self.
  - unfold Library.bind, Library.print, Library.modify. rewrite IH.
    destruct self; unfold Library.set_stdout; simpl.
    now rewrite <- app_assoc.
Qed.

Lemma search_books_report (kwargs : list (string * value))
    (results : list Book.t) (self : Library.t) :
  Library.search_results lower repr (Library.books self) kwargs = Ok results ->
  Library.search_books lower repr kwargs self
  = (Ok tt, Library.set_stdout self (Library.stdout self ++ Spec.report results)).
Proof.
  intros Hres. unfold Library.search_books, Library.bind, Library.get.
  rewrite Hres. destruct results as [|book results]; [reflexivity|].
  unfold Library.bind, Library.print, Library.modify.
  rewrite print_books_stdout.
  destruct self; unfold Library.set_stdout; simpl.
  now rewrite <- app_assoc.
Qed.


(** C10: with no criterion at all the search selects no book, whatever the
    catalogue holds, and [search_books] prints that none was found. *)
Theorem search_books_no_criteria (self : Library.t) :
  Library.search_results lower repr (Library.books self) [] = Ok [] /\
  Library.search_books lower repr [] self
  = (Ok tt, Library.set_stdout self
              (Library.stdout self ++ [Library.MsgNoneFound])).
Proof.
  assert (Hres : Library.search_results lower repr (Library.books self) [] = Ok []).
  { unfold Library.search_results.
    rewrite search_loop_filter by (intros kv []).
    simpl. f_equal. induction (Library.books self); simpl; auto. }
  split; [exact Hres|].
  now rewrite (search_books_report [] [] self Hres).
Qed.

End SearchFacts.

(** *** validate_year *)

Lemma all_digits_iff (y : string) :
  Py.all_digits y = true <->
  forall c, In c (list_ascii_of_string y) -> (48 <= nat_of_ascii c <= 57)%nat.
Proof.
  induction y as [|c y IH]; simpl.
  - split; [intros _ c []|reflexivity].
  - rewrite andb_true_iff, IH. unfold Py.is_digit.
    rewrite andb_true_iff, !Nat.leb_le. split.
    + intros [Hc Hy] c' [<-|Hin]; [exact Hc|now apply Hy].
    + intros H. split; [apply H; now left|].
      intros c' Hin. apply H. now right.
Qed.

Lemma isdigit_iff (y : string) :
  Py.ascii_isdigit y = true <-> Spec.digit_string y.
Proof.
  unfold Spec.digit_string. destruct y as [|c y].
  - simpl. split; [discriminate|]. intros [H _]. now destruct H.
  - change (Py.ascii_isdigit (String c y)) with (Py.all_digits (String c y)).
    rewrite all_digits_iff. split; [intros H; split; [discriminate|exact H]|].
    now intros [_ H].
Qed.

Ltac eval_digit :=
  match goal with
  | |- context [Py.digit_val ?c] =>
      let v := eval vm_compute in (Py.digit_val c) in
      change (Py.digit_val c) with v
  end.

Lemma int_acc_of_uint_acc (d : Decimal.uint) (acc : positive) :
  Py.int_acc (NilEmpty.string_of_uint d) (Z.pos acc)
  = Z.pos (Pos.of_uint_acc d acc).
Proof.
  revert acc.
  induction d as [|d IH|d IH|d IH|d IH|d IH|d IH|d IH|d IH|d IH|d IH];
    intros acc; [reflexivity|..];
    cbn [NilEmpty.string_of_uint Py.int_acc Pos.of_uint_acc];
    rewrite <- IH; f_equal; eval_digit; lia.
Qed.

Lemma int_acc_of_uint (d : Decimal.uint) :
  Py.int_acc (NilEmpty.string_of_uint d) 0 = Z.of_N (Pos.of_uint d).
Proof.
  induction d as [|d IH|d IH|d IH|d IH|d IH|d IH|d IH|d IH|d IH|d IH];
    [reflexivity|exact IH|..];
    cbn [NilEmpty.string_of_uint Py.int_acc Pos.of_uint];
    apply int_acc_of_uint_acc.
Qed.

(** The digits of [str(n)] denote [n], for a positive [n]. *)
Lemma int_str_int_pos (p : positive) :
  Py.digits_value (Py.str_int (Z.pos p)) = Z.pos p.
Proof.
  unfold Py.digits_value, Py.str_int. simpl.
  transitivity (Z.of_N (Pos.of_uint (Pos.to_uint p))).
  - unfold NilZero.string_of_uint.
    destruct (Pos.to_uint p) eqn:E; try apply int_acc_of_uint. reflexivity.
  - now rewrite DecimalPos.Unsigned.of_to.
Qed.

Lemma all_digits_of_uint (d : Decimal.uint) :
  Py.all_digits (NilEmpty.string_of_uint d) = true.
Proof. induction d; simpl; auto. Qed.

Lemma isdigit_str_int_pos (p : positive) :
  Py.ascii_isdigit (Py.str_int (Z.pos p)) = true.
Proof.
  unfold Py.str_int. simpl. unfold NilZero.string_of_uint.
  destruct (Pos.to_uint p) eqn:E; [reflexivity|..];
    rewrite <- E;
    (destruct (NilEmpty.string_of_uint (Pos.to_uint p)) eqn:Es;
     [rewrite E in Es; discriminate|]);
    rewrite <- Es; unfold Py.ascii_isdigit; rewrite Es; rewrite <- Es;
    apply all_digits_of_uint.
Qed.

Lemma isdigit_str_int_neg (p : positive) :
  Py.ascii_isdigit (Py.str_int (Z.neg p)) = false.
Proof. reflexivity. Qed.

Lemma all_digits_ascii (s : string) :
  Py.all_digits s = true -> Py.is_ascii s = true.
Proof.
  unfold Py.is_ascii. induction s as [|c s IH]; simpl; [reflexivity|].
  intros H. apply andb_true_iff in H. destruct H as [Hc Hs].
  rewrite (IH Hs), andb_true_r. unfold Py.is_digit in Hc.
  apply andb_true_iff in Hc. destruct Hc as [_ Hc].
  apply Nat.leb_le in Hc. apply Nat.ltb_lt. lia.
Qed.

Lemma is_ascii_str_int (n : Z) : Py.is_ascii (Py.str_int n) = true.
Proof.
  destruct n as [|p|p]; [reflexivity| |].
  - pose proof (isdigit_str_int_pos p) as H. unfold Py.ascii_isdigit in H.
    destruct (Py.str_int (Z.pos p)); [discriminate|].
    now apply all_digits_ascii.
  - unfold Py.str_int. simpl. unfold NilZero.string_of_uint.
    destruct (Pos.to_uint p); try reflexivity;
      change (Py.is_ascii (String "-" ?s)) with (Py.is_ascii s);
      apply all_digits_ascii; apply (all_digits_of_uint (_ _)).
Qed.

Lemma in_range_iff (n now : Z) :
  (0 <? n) && (n <=? now) = true <-> 0 < n <= now.
Proof. rewrite andb_true_iff, Z.ltb_lt, Z.leb_le. reflexivity. Qed.

Lemma ascii_runtime_instance : Py.ascii_runtime Py.ascii_isdigit Py.ascii_int.
Proof.
  unfold Py.ascii_runtime, Py.ascii_int. split; [reflexivity|]. split.
  - intros s n Hd. rewrite Hd. now intros [= <-].
  - intros s Hd _. now rewrite Hd.
Qed.

Section ValidateYear.
Variable isdigit : string -> bool.
Variable int : string -> option Z.

Lemma validate_year_cases (now : Z) (year : string) (self : Library.t) :
  Library.validate_year isdigit int now year self
  = (match Spec.accepted isdigit int now year with
     | Some _ => Ok tt
     | None => Raise ValueError
     end, self).
Proof.
  unfold Library.validate_year, Spec.accepted, Library.int_of, Library.bind.
  destruct (isdigit year); simpl; [|reflexivity].
  destruct (int year) as [n|]; simpl; [|reflexivity].
  destruct ((0 <? n) && (n <=? now)); reflexivity.
Qed.

Lemma accepted_iff (now : Z) (year : string) (n : Z) :
  Spec.accepted isdigit int now year = Some n <->
  Spec.denotes isdigit int year n /\ 0 < n <= now.
Proof.
  unfold Spec.accepted, Spec.denotes. destruct (isdigit year).
  - destruct (int year) as [m|].
    + destruct ((0 <? m) && (m <=? now)) eqn:Hr.
      * apply in_range_iff in Hr. split.
        -- intros [= <-]. now repeat split.
        -- intros [[_ Hint] _]. injection Hint as <-. reflexivity.
      * split; [discriminate|]. intros [[_ Hint] Hin]. injection Hint as <-.
        apply in_range_iff in Hin. congruence.
    + split; [discriminate|]. intros [[_ H] _]. discriminate.
  - split; [discriminate|]. intros [[H _] _]. discriminate.
Qed.

Lemma accepted_none (now : Z) (year : string) :
  Spec.accepted isdigit int now year = None <->
  (forall n, ~ Spec.denotes isdigit int year n) \/
  (exists n, Spec.denotes isdigit int year n /\ ~ (0 < n <= now)).
Proof.
  unfold Spec.accepted, Spec.denotes. destruct (isdigit year).
  - destruct (int year) as [m|].
    + destruct ((0 <? m) && (m <=? now)) eqn:Hr.
      * apply in_range_iff in Hr. split; [discriminate|].
        intros [Hno|(n & [_ Hint] & Hout)];
          [|injection Hint as <-; contradiction].
        exfalso. apply (Hno m). now split.
      * split; [|reflexivity]. intros _. right. exists m.
        split; [now split|]. intros H. apply in_range_iff in H. congruence.
    + split; [|reflexivity]. intros _. left. intros n [_ H]. discriminate.
  - split; [|reflexivity]. intros _. left. intros n [H _]. discriminate.
Qed.

Lemma validate_year_ok (now : Z) (year : string) (self : Library.t) :
  fst (Library.validate_year isdigit int now year self) = Ok tt <->
  exists n, Spec.accepted isdigit int now year = Some n.
Proof.
  rewrite validate_year_cases. cbn [fst].
  destruct (Spec.accepted isdigit int now year) as [n|]; split.
  - intros _. now exists n.
  - reflexivity.
  - discriminate.
  - intros [n H]. discriminate.
Qed.

Section OnAscii.
Hypothesis Hruntime : Py.ascii_runtime isdigit int.

Lemma accepted_not_digits (now : Z) (year : string) :
  Py.is_ascii year = true -> Py.ascii_isdigit year = false ->
  Spec.accepted isdigit int now year = None.
Proof.
  intros Hascii Hd. destruct Hruntime as (H1 & _ & _).
  unfold Spec.accepted. now rewrite (H1 year Hascii), Hd.
Qed.

Lemma accepted_digits (now : Z) (year : string) (n : Z) :
  Py.is_ascii year = true -> Py.ascii_isdigit year = true ->
  Spec.accepted isdigit int now year = Some n ->
  n = Py.digits_value year /\ 0 < n <= now.
Proof.
  intros Hascii Hd Hacc. destruct Hruntime as (_ & H2 & _).
  apply accepted_iff in Hacc. destruct Hacc as [[_ Hint] Hr].
  split; [now apply H2|exact Hr].
Qed.

Lemma accepted_short (now : Z) (year : string) :
  Py.is_ascii year = true -> Py.ascii_isdigit year = true ->
  (String.length year <= 4300)%nat ->
  Spec.accepted isdigit int now year
  = if (0 <? Py.digits_value year) && (Py.digits_value year <=? now)
    then Some (Py.digits_value year) else None.
Proof.
  intros Hascii Hd Hlen. destruct Hruntime as (H1 & _ & H3).
  unfold Spec.accepted. now rewrite (H1 year Hascii), Hd, (H3 year Hd Hlen).
Qed.


End OnAscii.
End ValidateYear.

(** *** The operations, as functions of the state *)

Lemma save_books_eq (self : Library.t) :
  Library.save_books self
  = (Ok tt,
     Library.mk (Spec.saved_file (Library.books self)) (Library.books self)
                (Library.next_id self)
                (Library.stdout self ++ Spec.saved_output (Library.books self))).
Proof.
  unfold Library.save_books, Library.try_except, Library.bind, Library.get,
    Library.json_dump, Spec.saved_file, Spec.saved_output.
  destruct self as [f bs n out]. cbn [Library.books].
  destruct (Library.writable bs); simpl; [now rewrite app_nil_r|reflexivity].
Qed.

Lemma remove_book_eq (book_id : Z) (self : Library.t) :
  Library.remove_book book_id self
  = (Ok tt,
     match Library.find_book book_id (Library.books self) with
     | Some (before, _, after) =>
         Library.mk (Spec.saved_file (before ++ after)) (before ++ after)
                    (Library.next_id self)
                    (Library.stdout self ++ Spec.saved_output (before ++ after)
                       ++ [Library.MsgRemoved book_id])
     | None =>
         Library.set_stdout self
           (Library.stdout self ++ [Library.MsgNotFound book_id])
     end).
Proof.
  unfold Library.remove_book, Library.bind at 1, Library.get.
  destruct (Library.find_book book_id (Library.books self))
    as [[[before book] after]|]; [|reflexivity].
  unfold Library.bind, Library.modify. rewrite save_books_eq.
  unfold Library.print, Library.modify, Library.set_stdout.
  destruct self; simpl. now rewrite <- app_assoc.
Qed.

Lemma update_status_eq (book_id : Z) (new_status : string) (self : Library.t) :
  Library.update_status book_id new_status self
  = (Ok tt,
     match Library.find_book book_id (Library.books self) with
     | Some (before, book, after) =>
         if Library.valid_status new_status then
           let bs := before ++ Book.set_status book (VStr new_status) :: after in
           Library.mk (Spec.saved_file bs) bs (Library.next_id self)
             (Library.stdout self ++ Spec.saved_output bs ++
                [Library.MsgStatusUpdated (Book.title book) book_id new_status])
         else
           Library.set_stdout self
             (Library.stdout self ++ [Library.MsgInvalidStatus])
     | None =>
         Library.set_stdout self
           (Library.stdout self ++ [Library.MsgNotFound book_id])
     end).
Proof.
  unfold Library.update_status, Library.bind at 1, Library.get.
  destruct (Library.find_book book_id (Library.books self))
    as [[[before book] after]|]; [|reflexivity].
  destruct (Library.valid_status new_status); [|reflexivity].
  unfold Library.bind, Library.modify. rewrite save_books_eq.
  unfold Library.print, Library.modify, Library.set_stdout.
  destruct self; simpl. now rewrite <- app_assoc.
Qed.

Lemma saved_cases (bs : list Book.t) :
  (Library.writable bs = true /\
   Spec.saved_file bs = Library.Json (VList (map Book.to_dict bs)) /\
   Spec.saved_output bs = []) \/
  (Library.writable bs = false /\
   Spec.saved_file bs = Library.Garbled /\
   Spec.saved_output bs = [Library.MsgSaveError]).
Proof.
  unfold Spec.saved_file, Spec.saved_output.
  destruct (Library.writable bs); [left|right]; repeat split.
Qed.

Section AddBook.
Variable isdigit : string -> bool.
Variable int : string -> option Z.

Lemma add_book_eq (now : Z) (title author year : string) (self : Library.t) :
  Library.add_book isdigit int now title author year self
  = (Ok tt,
     match Spec.accepted isdigit int now year with
     | Some n =>
         let bs := Library.books self ++
                     [Book.init (VInt (Library.next_id self)) (VStr title)
                                (VStr author) (VInt n)] in
         Library.mk (Spec.saved_file bs) bs (Library.next_id self + 1)
                    (Library.stdout self ++ Spec.saved_output bs ++
                       [Library.MsgAdded title])
     | None =>
         Library.set_stdout self
           (Library.stdout self ++ [Library.MsgError ValueError])
     end).
Proof.
  unfold Library.add_book, Library.try_except, Library.bind at 1.
  rewrite validate_year_cases.
  destruct (Spec.accepted isdigit int now year) as [n|] eqn:Hacc;
    [|reflexivity].
  apply accepted_iff in Hacc. destruct Hacc as [[_ Hint] _].
  unfold Library.bind, Library.get, Library.int_of, Library.modify.
  rewrite Hint. cbn [Library.ret]. rewrite save_books_eq.
  unfold Library.print, Library.modify, Library.set_stdout.
  destruct self; simpl. now rewrite <- app_assoc.
Qed.


End AddBook.


(** *** The book an id designates *)

Lemma find_book_some (book_id : Z) (bs before after : list Book.t) (book : Book.t) :
  Library.find_book book_id bs = Some (before, book, after) ->
  bs = before ++ book :: after /\
  Py.eq_int (Book.id book) book_id = true /\
  forall b, In b before -> Py.eq_int (Book.id b) book_id = false.
Proof.
  revert before. induction bs as [|b bs IH]; intros before; simpl; [discriminate|].
  destruct (Py.eq_int (Book.id b) book_id) eqn:E.
  - intros [= <- <- <-]. repeat split; [exact E|intros ? []].
  - destruct (Library.find_book book_id bs) as [[[before' found] after']|];
      [|discriminate].
    intros [= <- <- <-].
    destruct (IH before' eq_refl) as (-> & Hid & Hbefore).
    repeat split; [exact Hid|].
    intros b' [<-|Hin]; [exact E|now apply Hbefore].
Qed.

Lemma find_book_none (book_id : Z) (bs : list Book.t) :
  Library.find_book book_id bs = None <->
  forall b, In b bs -> Py.eq_int (Book.id b) book_id = false.
Proof.
  induction bs as [|b bs IH]; simpl.
  - split; [intros _ ? []|reflexivity].
  - destruct (Py.eq_int (Book.id b) book_id) eqn:E.
    + split; [discriminate|]. intros H. specialize (H b (or_introl eq_refl)).
      congruence.
    + destruct (Library.find_book book_id bs) as [[[before found] after]|].
      * split; [discriminate|]. intros H.
        enough (Hnone : Some (before, found, after) = None) by discriminate.
        apply IH. intros b' Hin. apply H. now right.
      * split; [|reflexivity]. intros _ b' [<-|Hin]; [exact E|].
        now apply IH.
Qed.

Lemma find_book_in (book_id : Z) (bs : list Book.t) (b : Book.t) :
  In b bs -> Py.eq_int (Book.id b) book_id = true ->
  exists before book after,
    Library.find_book book_id bs = Some (before, book, after).
Proof.
  intros Hin Hid.
  destruct (Library.find_book book_id bs) as [[[before book] after]|] eqn:E.
  - now exists before, book, after.
  - rewrite find_book_none in E. rewrite (E b Hin) in Hid. discriminate.
Qed.

(** *** update_status *)



(** C4, as the code has it: with a status that is not one of the two,
    [update_status] changes neither the books nor the counter nor the file
    and returns; it prints that the status is invalid when the catalogue has
    a book with the given id, and that the book is not found when it has
    none. *)
Theorem update_status_invalid (self : Library.t) (book_id : Z) (new_status : string)
    (Hstatus : new_status <> Book.available /\ new_status <> Book.checked_out) :
  exists self',
    Library.update_status book_id new_status self = (Ok tt, self') /\
    Library.books self' = Library.books self /\
    Library.next_id self' = Library.next_id self /\
    Library.storage_file self' = Library.storage_file self /\
    Library.stdout self'
    = Library.stdout self ++
        [if existsb (fun b => Py.eq_int (Book.id b) book_id) (Library.books self)
         then Library.MsgInvalidStatus
         else Library.MsgNotFound book_id].
Proof.
  assert (Hvalid : Library.valid_status new_status = false).
  { unfold Library.valid_status. apply orb_false_iff.
    split; apply String.eqb_neq; tauto. }
  unfold Library.update_status, Library.bind, Library.get.
  destruct (Library.find_book book_id (Library.books self))
    as [[[before book] after]|] eqn:Hfind.
  - rewrite Hvalid.
    destruct (find_book_some _ _ _ _ _ Hfind) as (Hbooks & Hbook & _).
    assert (Hex : existsb (fun b => Py.eq_int (Book.id b) book_id)
                    (Library.books self) = true).
    { apply existsb_exists. exists book. split; [|exact Hbook].
      rewrite Hbooks. apply in_elt. }
    rewrite Hex. eexists. split; [reflexivity|]. simpl. repeat split.
  - assert (Hex : existsb (fun b => Py.eq_int (Book.id b) book_id)
                    (Library.books self) = false).
    { rewrite find_book_none in Hfind.
      destruct (existsb _ _) eqn:E; [|reflexivity].
      apply existsb_exists in E. destruct E as (b & Hin & Hb).
      rewrite (Hfind b Hin) in Hb. discriminate. }
    rewrite Hex. eexists. split; [reflexivity|]. simpl. repeat split.
Qed.

(** C4, the claim as stated fails: for an id no book has, an invalid
    status is not reported; the book is reported as not found. *)
Lemma update_status_invalid_unknown_id :
  Library.valid_status "lost" = false /\
  Library.find_book 7 (Library.books Sample.library) = None /\
  Library.update_status 7 "lost" Sample.library
  = (Ok tt, Library.set_stdout Sample.library [Library.MsgNotFound 7]) /\
  Library.stdout (snd (Library.update_status 7 "lost" Sample.library))
  <> Library.stdout Sample.library ++ [Library.MsgInvalidStatus].
Proof.
  repeat split; discriminate.
Qed.

(** *** from_dict and load_books *)

Lemma dict_get_cases (d : list (string * value)) (key : string) :
  (exists v, In (key, v) d /\ Py.dict_get d key = Ok v) \/
  ((forall v, ~ In (key, v) d) /\ Py.dict_get d key = Raise (KeyError key)).
Proof.
  induction d as [|[k v] d IH]; simpl.
  - right. split; [intros v []|reflexivity].
  - destruct (String.eqb k key) eqn:E.
    + apply String.eqb_eq in E. subst k. left. exists v. split; [now left|reflexivity].
    + apply String.eqb_neq in E. destruct IH as [(v' & Hin & Hget)|[Hnot Hget]].
      * left. exists v'. split; [now right|exact Hget].
      * right. split; [|exact Hget].
        intros v' [[= Hk _]|Hin]; [now apply E|now apply (Hnot v')].
Qed.


Lemma from_dict_mistyped_accepted :
  Book.from_dict Sample.mistyped
  = Ok (Book.mk (VStr "one") (VInt 3) VNone (VStr "1965") (VInt 7)).
Proof. reflexivity. Qed.


(** *** The ids and the counter *)

Lemma ints_app (l1 l2 : list value) :
  Library.ints (l1 ++ l2)
  = match Library.ints l1, Library.ints l2 with
    | Some zs1, Some zs2 => Some (zs1 ++ zs2)
    | _, _ => None
    end.
Proof.
  induction l1 as [|v l1 IH]; simpl.
  - now destruct (Library.ints l2).
  - rewrite IH. destruct (Py.as_int v); [|reflexivity].
    destruct (Library.ints l1); [|reflexivity].
    now destruct (Library.ints l2).
Qed.

Lemma ints_in (l : list value) (zs : list Z) (v : value) :
  Library.ints l = Some zs -> In v l ->
  exists z, Py.as_int v = Some z /\ In z zs.
Proof.
  revert zs. induction l as [|w l IH]; intros zs Hl Hin; [destruct Hin|].
  simpl in Hl.
  destruct (Py.as_int w) as [z|] eqn:Ew; [|discriminate].
  destruct (Library.ints l) as [zs'|]; [|discriminate].
  injection Hl as <-. destruct Hin as [<-|Hin].
  - exists z. split; [exact Ew|now left].
  - destruct (IH zs' eq_refl Hin) as (z' & Hz' & Hin'). exists z'.
    split; [exact Hz'|now right].
Qed.

Lemma ints_as_int (l : list value) (zs : list Z) :
  Library.ints l = Some zs -> map Py.as_int l = map Some zs.
Proof.
  revert zs. induction l as [|v l IH]; intros zs; simpl.
  - now intros [= <-].
  - destruct (Py.as_int v) as [z|]; [|discriminate].
    destruct (Library.ints l) as [zs'|]; [|discriminate].
    intros [= <-]. simpl. now rewrite (IH zs').
Qed.

(** Ids that are distinct as integers are distinct as values. *)
Lemma ints_NoDup (l : list value) (zs : list Z) :
  Library.ints l = Some zs -> NoDup zs -> NoDup l.
Proof.
  revert zs. induction l as [|v l IH]; intros zs Hl Hzs; [constructor|].
  simpl in Hl.
  destruct (Py.as_int v) as [z|] eqn:Ev; [|discriminate].
  destruct (Library.ints l) as [zs'|] eqn:El; [|discriminate].
  injection Hl as <-. inversion Hzs as [|? ? Hnotin Hzs']; subst.
  constructor; [|now apply (IH zs')].
  intros Hin. destruct (ints_in l zs' v El Hin) as (z' & Hz' & Hin').
  rewrite Ev in Hz'. injection Hz' as <-. now apply Hnotin.
Qed.

Lemma invariant_add (self : Library.t) (book : Book.t) (f : Library.file)
    (out : list Library.message) :
  Book.id book = VInt (Library.next_id self) ->
  Run.invariant self ->
  Run.invariant
    (Library.mk f (Library.books self ++ [book]) (Library.next_id self + 1) out).
Proof.
  intros Hid (zs & Hzs & Hnodup & Hlt).
  exists (zs ++ [Library.next_id self]).
  unfold Run.id_numbers in *. simpl. split; [|split].
  - rewrite map_app, ints_app, Hzs. simpl. now rewrite Hid.
  - apply NoDup_app; [exact Hnodup|repeat constructor; intros []|].
    intros z Hin [<-|[]]. specialize (Hlt _ Hin). lia.
  - intros z Hin. apply in_app_or in Hin. destruct Hin as [Hin|[<-|[]]].
    + specialize (Hlt _ Hin). lia.
    + lia.
Qed.

Lemma invariant_remove (self : Library.t) (before after : list Book.t)
    (book : Book.t) (f : Library.file) (out : list Library.message) :
  Library.books self = before ++ book :: after ->
  Run.invariant self ->
  Run.invariant (Library.mk f (before ++ after) (Library.next_id self) out).
Proof.
  intros Hbooks (zs & Hzs & Hnodup & Hlt).
  unfold Run.id_numbers in *. rewrite Hbooks, map_app, ints_app in Hzs.
  simpl in Hzs.
  destruct (Library.ints (map Book.id before)) as [zs1|] eqn:E1; [|discriminate].
  destruct (Py.as_int (Book.id book)) as [z|]; [|discriminate].
  destruct (Library.ints (map Book.id after)) as [zs2|] eqn:E2; [|discriminate].
  injection Hzs as <-.
  exists (zs1 ++ zs2). unfold Run.id_numbers. simpl. split; [|split].
  - now rewrite map_app, ints_app, E1, E2.
  - now apply NoDup_remove_1 in Hnodup.
  - intros x Hin. apply Hlt. apply in_app_or in Hin. apply in_or_app.
    destruct Hin as [Hin|Hin]; [now left|right; now right].
Qed.

Lemma invariant_update (self : Library.t) (before after : list Book.t)
    (book : Book.t) (s : value) (f : Library.file) (out : list Library.message) :
  Library.books self = before ++ book :: after ->
  Run.invariant self ->
  Run.invariant
    (Library.mk f (before ++ Book.set_status book s :: after)
                (Library.next_id self) out).
Proof.
  intros Hbooks (zs & Hzs & Hnodup & Hlt).
  exists zs. unfold Run.id_numbers in *. simpl. split; [|split; assumption].
  rewrite Hbooks in Hzs. rewrite map_app in Hzs. rewrite map_app. exact Hzs.
Qed.

Lemma invariant_stdout (self : Library.t) (out : list Library.message) :
  Run.invariant self -> Run.invariant (Library.set_stdout self out).
Proof. intros H. exact H. Qed.

Lemma step_invariant (self self' : Library.t) :
  Run.step self self' -> Run.invariant self -> Run.invariant self'.
Proof.
  intros Hstep Hinv. destruct Hstep as [isdigit int now title author year self
                                      |book_id self|book_id new_status self].
  - rewrite add_book_eq. cbn [snd].
    destruct (Spec.accepted isdigit int now year) as [n|].
    + now apply invariant_add.
    + now apply invariant_stdout.
  - rewrite remove_book_eq. cbn [snd].
    destruct (Library.find_book book_id (Library.books self))
      as [[[before book] after]|] eqn:Hfind.
    + apply find_book_some in Hfind. destruct Hfind as (Hbooks & _).
      now apply (invariant_remove self before after book).
    + now apply invariant_stdout.
  - rewrite update_status_eq. cbn [snd].
    destruct (Library.find_book book_id (Library.books self))
      as [[[before book] after]|] eqn:Hfind.
    + apply find_book_some in Hfind. destruct Hfind as (Hbooks & _).
      destruct (Library.valid_status new_status).
      * now apply invariant_update.
      * now apply invariant_stdout.
    + now apply invariant_stdout.
Qed.

Lemma reachable_invariant (start self : Library.t) :
  Run.reachable start self -> Run.invariant start -> Run.invariant self.
Proof.
  induction 1 as [|self self' _ IH Hstep]; intros Hstart; [exact Hstart|].
  apply (step_invariant self self' Hstep). now apply IH.
Qed.

(** The counter [__init__] computes is above every id loaded. *)
Lemma init_next_id (f : Library.file) (start : Library.t) :
  Library.init f = Ok start ->
  Library.get_next_id (Library.books start) = Ok (Library.next_id start).
Proof.
  unfold Library.init. destruct (Library.load_books f) as [[bs|e] out];
    [|discriminate].
  simpl. destruct (Library.get_next_id bs) as [n|e] eqn:E; [|discriminate].
  simpl. intros [= <-]. exact E.
Qed.

Lemma init_invariant (f : Library.file) (start : Library.t) :
  Library.init f = Ok start ->
  Run.distinct_ids (Library.books start) ->
  Run.invariant start.
Proof.
  intros Hinit (zs & Hzs & Hnodup). apply init_next_id in Hinit.
  exists zs. split; [exact Hzs|]. split; [exact Hnodup|].
  unfold Run.id_numbers in Hzs. unfold Library.get_next_id in Hinit.
  destruct (Library.books start) as [|b bs].
  - injection Hzs as <-. intros z [].
  - rewrite Hzs in Hinit. destruct zs as [|z0 zs]; [discriminate|].
    injection Hinit as <-. intros z Hin.
    destruct (max_from_greatest zs z0) as [_ Hle]. specialize (Hle z Hin). lia.
Qed.

(** A store the program saved loads into the books it was saved from. *)
Lemma load_books_dump (bs : list Book.t) :
  Library.load_books (Library.dump bs) = (Ok bs, []).
Proof.
  unfold Library.load_books, Library.dump. simpl.
  assert (H : rmap Book.from_dict (map Book.to_dict bs) = Ok bs).
  { induction bs as [|b bs IH]; [reflexivity|].
    cbn [map rmap]. rewrite from_dict_to_dict_ok, IH. reflexivity. }
  now rewrite H.
Qed.

(** Starting the program again on the store it saved gives the same books,
    with ids that are distinct still. *)
Lemma init_dump_distinct (self : Library.t) :
  Run.invariant self ->
  exists start,
    Library.init (Library.dump (Library.books self)) = Ok start /\
    Library.books start = Library.books self /\
    Run.distinct_ids (Library.books start).
Proof.
  intros (zs & Hzs & Hnodup & _).
  unfold Library.init. rewrite load_books_dump. cbn [rbind].
  assert (Hnext : exists n, Library.get_next_id (Library.books self) = Ok n).
  { unfold Library.get_next_id. unfold Run.id_numbers in Hzs.
    destruct (Library.books self) as [|b bs]; [now exists 1|].
    destruct zs as [|z zs]; [|rewrite Hzs; now eexists].
    simpl in Hzs. destruct (Py.as_int (Book.id b)); [|discriminate].
    destruct (Library.ints (map Book.id bs)); discriminate. }
  destruct Hnext as [n ->]. eexists. split; [reflexivity|].
  split; [reflexivity|]. now exists zs.
Qed.

Lemma init_missing :
  Library.init Library.Missing = Ok (Library.mk Library.Missing [] 1 []) /\
  Run.distinct_ids [].
Proof.
  split; [reflexivity|]. exists []. split; [reflexivity|constructor].
Qed.

(** C2, as the code has it: when the ids of the books loaded at the
    construction are integers no two of which are equal (so from a missing
    file, an empty store, or a store the program saved), then in every
    state reached by adding, removing and updating the ids are pairwise
    distinct integers, and the counter is above every id present, whatever
    gaps the removals have left. *)
Theorem ids_pairwise_distinct (f : Library.file) (start self : Library.t)
    (Hinit : Library.init f = Ok start)
    (Hdistinct : Run.distinct_ids (Library.books start))
    (Hreach : Run.reachable start self) :
  NoDup (map Book.id (Library.books self)) /\
  exists zs,
    map Py.as_int (map Book.id (Library.books self)) = map Some zs /\
    NoDup zs /\
    forall z, In z zs -> z < Library.next_id self.
Proof.
  assert (Hinv : Run.invariant self).
  { apply (reachable_invariant start self Hreach).
    now apply (init_invariant f). }
  destruct Hinv as (zs & Hzs & Hnodup & Hlt).
  split; [now apply (ints_NoDup _ zs)|].
  exists zs. split; [|now split].
  unfold Run.id_numbers in Hzs. now apply ints_as_int.
Qed.

(** C2, the claim as stated fails: the library constructed from a store
    that holds the same id twice has two books with that id. *)
Lemma ids_twice_after_init :
  exists start,
    Library.init Sample.twice = Ok start /\
    Run.reachable start start /\
    map Book.id (Library.books start) = [VInt 1; VInt 1] /\
    ~ NoDup (map Book.id (Library.books start)).
Proof.
  eexists. split; [reflexivity|]. split; [constructor|].
  split; [reflexivity|].
  simpl. intros H. inversion H as [|? ? Hnotin _]; subst.
  apply Hnotin. now left.
Qed.

(** *** The theorems at the sample data *)




Lemma get_next_id_spec_witness :
  map Book.id Sample.shelf = map VInt [1; 5; 2] /\
  exists m, Spec.greatest m [1; 5; 2] /\
            Library.get_next_id Sample.shelf = Ok (m + 1).
Proof.
  split; [reflexivity|].
  exact (get_next_id_spec Sample.shelf [1; 5; 2] eq_refl).
Defined.


Lemma update_status_invalid_witness :
  ("lost" <> Book.available /\ "lost" <> Book.checked_out) /\
  exists self',
    Library.update_status 5 "lost" Sample.library = (Ok tt, self') /\
    Library.books self' = Library.books Sample.library /\
    Library.storage_file self' = Library.storage_file Sample.library /\
    Library.stdout self' = [Library.MsgInvalidStatus].
Proof.
  assert (Hstatus : "lost" <> Book.available /\ "lost" <> Book.checked_out)
    by (split; intros H; discriminate H).
  split; [exact Hstatus|].
  destruct (update_status_invalid Sample.library 5 "lost" Hstatus)
    as (self' & Hupdate & Hbooks & _ & Hfile & Hout).
  exists self'. split; [exact Hupdate|]. split; [exact Hbooks|].
  split; [exact Hfile|]. rewrite Hout. reflexivity.
Defined.

Lemma ids_pairwise_distinct_witness :
  Library.init Sample.stored = Ok Sample.library /\
  Run.distinct_ids (Library.books Sample.library) /\
  Run.reachable Sample.library Sample.later /\
  map Book.id (Library.books Sample.later) = [VInt 1; VInt 2; VInt 6] /\
  NoDup (map Book.id (Library.books Sample.later)).
Proof.
  assert (Hinit : Library.init Sample.stored = Ok Sample.library) by reflexivity.
  assert (Hdistinct : Run.distinct_ids (Library.books Sample.library)).
  { exists [1; 5; 2]. split; [reflexivity|].
    repeat constructor; simpl; intros H; decompose [or] H; discriminate || assumption. }
  assert (Hreach : Run.reachable Sample.library Sample.later).
  { unfold Sample.later.
    eapply Run.reach_step; [eapply Run.reach_step; [apply Run.reach_start|]|].
    - apply Run.step_remove.
    - apply Run.step_add. }
  split; [exact Hinit|]. split; [exact Hdistinct|]. split; [exact Hreach|].
  split; [reflexivity|].
  exact (proj1 (ids_pairwise_distinct Sample.stored Sample.library Sample.later
                  Hinit Hdistinct Hreach)).
Defined.

(** ** Further properties *)

(** *** remove_book *)

(** X1: removing an id that no book has changes neither the books nor the
    counter nor the file; it only prints that the book is not found. *)
Theorem remove_book_unknown (self : Library.t) (book_id : Z)
    (Hnone : forall b, In b (Library.books self) ->
                       Py.eq_int (Book.id b) book_id = false) :
  Library.remove_book book_id self
  = (Ok tt, Library.set_stdout self
              (Library.stdout self ++ [Library.MsgNotFound book_id])).
Proof.
  rewrite remove_book_eq.
  apply find_book_none in Hnone. now rewrite Hnone.
Qed.

(** X2: removing an id that some book has takes out the first book with
    that id and no other: the books before and after it stay, in their
    order, and the counter is not touched.  Then the books are saved: when
    every text of theirs can be encoded the file holds the new list; when
    one cannot, the save error is printed first and the file is left with
    a text that is not JSON. *)
Theorem remove_book_first (self : Library.t) (book_id : Z)
    (Hid : exists b, In b (Library.books self) /\
                     Py.eq_int (Book.id b) book_id = true) :
  exists before book after self',
    Library.books self = before ++ book :: after /\
    Py.eq_int (Book.id book) book_id = true /\
    (forall b, In b before -> Py.eq_int (Book.id b) book_id = false) /\
    Library.remove_book book_id self = (Ok tt, self') /\
    Library.books self' = before ++ after /\
    Library.next_id self' = Library.next_id self /\
    (Library.writable (before ++ after) = true ->
     Library.storage_file self'
     = Library.Json (VList (map Book.to_dict (before ++ after))) /\
     Library.stdout self'
     = Library.stdout self ++ [Library.MsgRemoved book_id]) /\
    (Library.writable (before ++ after) = false ->
     Library.storage_file self' = Library.Garbled /\
     Library.stdout self'
     = Library.stdout self ++
         [Library.MsgSaveError; Library.MsgRemoved book_id]).
Proof.
  destruct Hid as (b & Hin & Hb).
  destruct (find_book_in book_id _ b Hin Hb) as (before & book & after & Hfind).
  destruct (find_book_some _ _ _ _ _ Hfind) as (Hbooks & Hbook & Hbefore).
  exists before, book, after. eexists.
  split; [exact Hbooks|]. split; [exact Hbook|]. split; [exact Hbefore|].
  rewrite remove_book_eq, Hfind. split; [reflexivity|].
  cbn [Library.books Library.next_id Library.storage_file Library.stdout].
  split; [reflexivity|]. split; [reflexivity|].
  destruct (saved_cases (before ++ after)) as [(Hw & -> & ->)|(Hw & -> & ->)];
    rewrite Hw; (split; [intros H|intros H]); try discriminate H; now split.
Qed.

Lemma ints_app_inv (l1 l2 : list value) (zs : list Z) :
  Library.ints (l1 ++ l2) = Some zs ->
  exists zs1 zs2,
    zs = zs1 ++ zs2 /\ Library.ints l1 = Some zs1 /\ Library.ints l2 = Some zs2.
Proof.
  rewrite ints_app.
  destruct (Library.ints l1) as [zs1|]; [|discriminate].
  destruct (Library.ints l2) as [zs2|]; [|discriminate].
  intros [= <-]. now exists zs1, zs2.
Qed.

(** X3: when the ids of the catalogue are numbers no two of which are
    equal, no book with the id is left after [remove_book]. *)
Theorem remove_book_gone (self : Library.t) (book_id : Z)
    (Hdistinct : Run.distinct_ids (Library.books self)) :
  forall b, In b (Library.books (snd (Library.remove_book book_id self))) ->
            Py.eq_int (Book.id b) book_id = false.
Proof.
  rewrite remove_book_eq. cbn [snd].
  destruct (Library.find_book book_id (Library.books self))
    as [[[before book] after]|] eqn:Hfind.
  - destruct (find_book_some _ _ _ _ _ Hfind) as (Hbooks & Hbook & Hbefore).
    destruct Hdistinct as (zs & Hzs & Hnodup).
    unfold Run.id_numbers in Hzs. rewrite Hbooks, map_app in Hzs.
    apply ints_app_inv in Hzs. destruct Hzs as (zs1 & zs' & -> & _ & Hzs').
    simpl in Hzs'. unfold Py.eq_int in Hbook.
    destruct (Py.as_int (Book.id book)) as [z|]; [|discriminate].
    destruct (Library.ints (map Book.id after)) as [zs2|] eqn:Hafter;
      [|discriminate].
    injection Hzs' as <-. apply Z.eqb_eq in Hbook. subst z.
    apply NoDup_remove_2 in Hnodup.
    intros b Hin. cbn [Library.books] in Hin. apply in_app_or in Hin.
    destruct Hin as [Hin|Hin]; [now apply Hbefore|].
    destruct (ints_in _ zs2 (Book.id b) Hafter (in_map Book.id _ _ Hin))
      as (z & Hz & Hzin).
    unfold Py.eq_int. rewrite Hz. apply Z.eqb_neq. intros ->.
    apply Hnodup. apply in_or_app. now right.
  - rewrite find_book_none in Hfind. exact Hfind.
Qed.

(** *** What the three operations never do *)


(** *** The counter *)

Lemma step_next_id (self self' : Library.t) :
  Run.step self self' ->
  Library.next_id self' = Library.next_id self \/
  Library.next_id self' = Library.next_id self + 1.
Proof.
  intros Hstep. destruct Hstep as [isdigit int now title author year self
                                  |book_id self|book_id new_status self].
  - rewrite add_book_eq. cbv zeta. cbn [snd].
    destruct (Spec.accepted isdigit int now year) as [n|];
      [right|left]; reflexivity.
  - rewrite remove_book_eq. cbn [snd]. left.
    destruct (Library.find_book book_id (Library.books self))
      as [[[before book] after]|]; reflexivity.
  - rewrite update_status_eq. cbv zeta. cbn [snd]. left.
    destruct (Library.find_book book_id (Library.books self))
      as [[[before book] after]|]; [|reflexivity].
    destruct (Library.valid_status new_status); reflexivity.
Qed.

(** X5: the counter never goes down: in every state reached from [start]
    it is at least what it was in [start], whatever was removed. *)
Theorem next_id_never_decreases (start self : Library.t)
    (Hreach : Run.reachable start self) :
  Library.next_id start <= Library.next_id self.
Proof.
  induction Hreach as [|self self' _ IH Hstep]; [lia|].
  destruct (step_next_id self self' Hstep) as [-> | ->]; lia.
Qed.

(** *** The file and the books *)

Lemma numeric_add (bs : list Book.t) (book : Book.t) (n : Z) (zs : list Z) :
  Run.id_numbers bs = Some zs -> Book.id book = VInt n ->
  Run.id_numbers (bs ++ [book]) = Some (zs ++ [n]).
Proof.
  unfold Run.id_numbers. intros Hzs Hid.
  rewrite map_app, ints_app, Hzs. simpl. now rewrite Hid.
Qed.

Lemma numeric_split (before after : list Book.t) (book : Book.t) (zs : list Z) :
  Run.id_numbers (before ++ book :: after) = Some zs ->
  exists zs1 z zs2,
    zs = zs1 ++ z :: zs2 /\
    Run.id_numbers before = Some zs1 /\
    Py.as_int (Book.id book) = Some z /\
    Run.id_numbers after = Some zs2.
Proof.
  unfold Run.id_numbers. rewrite map_app. intros Hzs.
  apply ints_app_inv in Hzs. destruct Hzs as (zs1 & zs' & -> & H1 & Hzs').
  simpl in Hzs'.
  destruct (Py.as_int (Book.id book)) as [z|]; [|discriminate].
  destruct (Library.ints (map Book.id after)) as [zs2|]; [|discriminate].
  injection Hzs' as <-. now exists zs1, z, zs2.
Qed.

Lemma numeric_join (before after : list Book.t) (zs1 zs2 : list Z) :
  Run.id_numbers before = Some zs1 -> Run.id_numbers after = Some zs2 ->
  Run.id_numbers (before ++ after) = Some (zs1 ++ zs2).
Proof.
  unfold Run.id_numbers. intros H1 H2. now rewrite map_app, ints_app, H1, H2.
Qed.

Lemma step_numeric (self self' : Library.t) :
  Run.step self self' -> Inv.numeric_ids self -> Inv.numeric_ids self'.
Proof.
  intros Hstep [zs Hzs]. unfold Inv.numeric_ids.
  destruct Hstep as [isdigit int now title author year self
                    |book_id self|book_id new_status self].
  - rewrite add_book_eq. cbv zeta. cbn [snd].
    destruct (Spec.accepted isdigit int now year) as [n|];
      [|now exists zs].
    eexists. cbn [Library.books]. eapply numeric_add; [exact Hzs|reflexivity].
  - rewrite remove_book_eq. cbn [snd].
    destruct (Library.find_book book_id (Library.books self))
      as [[[before book] after]|] eqn:Hfind; [|now exists zs].
    apply find_book_some in Hfind. destruct Hfind as (Hbooks & _).
    rewrite Hbooks in Hzs. apply numeric_split in Hzs.
    destruct Hzs as (zs1 & z & zs2 & _ & H1 & _ & H2).
    eexists. cbn [Library.books]. eapply numeric_join; [exact H1|exact H2].
  - rewrite update_status_eq. cbv zeta. cbn [snd].
    destruct (Library.find_book book_id (Library.books self))
      as [[[before book] after]|] eqn:Hfind; [|now exists zs].
    destruct (Library.valid_status new_status); [|now exists zs].
    apply find_book_some in Hfind. destruct Hfind as (Hbooks & _).
    exists zs. cbn [Library.books]. rewrite Hbooks in Hzs.
    unfold Run.id_numbers in *. rewrite map_app in *. exact Hzs.
Qed.

(** When the books can be written, the file loads into them. *)
Lemma step_reloads (self self' : Library.t) :
  Run.step self self' ->
  (Library.writable (Library.books self) = true -> Inv.reloads self) ->
  Library.writable (Library.books self') = true -> Inv.reloads self'.
Proof.
  intros Hstep Hself. unfold Inv.reloads in *.
  assert (Hsaved : forall bs,
            Library.writable bs = true ->
            fst (Library.load_books (Spec.saved_file bs)) = Ok bs).
  { intros bs Hw. unfold Spec.saved_file. rewrite Hw.
    change (Library.Json (VList (map Book.to_dict bs))) with (Library.dump bs).
    now rewrite load_books_dump. }
  destruct Hstep as [isdigit int now title author year self
                    |book_id self|book_id new_status self].
  - rewrite add_book_eq. cbv zeta. cbn [snd].
    destruct (Spec.accepted isdigit int now year) as [n|]; [|exact Hself].
    cbn [Library.storage_file Library.books]. apply Hsaved.
  - rewrite remove_book_eq. cbn [snd].
    destruct (Library.find_book book_id (Library.books self))
      as [[[before book] after]|]; [|exact Hself].
    cbn [Library.storage_file Library.books]. apply Hsaved.
  - rewrite update_status_eq. cbv zeta. cbn [snd].
    destruct (Library.find_book book_id (Library.books self))
      as [[[before book] after]|]; [|exact Hself].
    destruct (Library.valid_status new_status); [|exact Hself].
    cbn [Library.storage_file Library.books]. apply Hsaved.
Qed.

Lemma get_next_id_numeric (bs : list Book.t) :
  (exists n, Library.get_next_id bs = Ok n) <->
  (exists zs, Run.id_numbers bs = Some zs).
Proof.
  unfold Library.get_next_id, Run.id_numbers. destruct bs as [|b bs].
  - split; intros _; [now exists []|now exists 1].
  - destruct (Library.ints (map Book.id (b :: bs))) as [[|z zs]|] eqn:E.
    + simpl in E. destruct (Py.as_int (Book.id b)); [|discriminate].
      destruct (Library.ints (map Book.id bs)); discriminate.
    + split; intros _; eexists; reflexivity.
    + split; intros [x Hx]; discriminate.
Qed.

Lemma as_int_ints (l : list value) (zs : list Z) :
  map Py.as_int l = map Some zs -> Library.ints l = Some zs.
Proof.
  revert zs. induction l as [|v l IH]; intros [|z zs]; simpl;
    try discriminate; [reflexivity|].
  intros [= -> H]. now rewrite (IH zs H).
Qed.

(** What [__init__] gives when it returns. *)
Lemma init_ok (f : Library.file) (self : Library.t) :
  Library.init f = Ok self ->
  Library.storage_file self = f /\
  fst (Library.load_books f) = Ok (Library.books self) /\
  Library.stdout self = snd (Library.load_books f) /\
  Library.get_next_id (Library.books self) = Ok (Library.next_id self).
Proof.
  unfold Library.init. destruct (Library.load_books f) as [[bs|e] out];
    [|discriminate].
  simpl. destruct (Library.get_next_id bs) as [n|e] eqn:E; [|discriminate].
  simpl. intros [= <-]. repeat split. exact E.
Qed.

(** X6: in every state reached from a library that was constructed, if
    every text of the books can be encoded, the storage file loads into
    exactly the books the library holds, and a new library constructed on
    that file starts with these books, in the same order. *)
Theorem store_reloads (f : Library.file) (start self : Library.t)
    (Hinit : Library.init f = Ok start)
    (Hreach : Run.reachable start self)
    (Hwritable : Library.writable (Library.books self) = true) :
  fst (Library.load_books (Library.storage_file self)) = Ok (Library.books self) /\
  exists again,
    Library.init (Library.storage_file self) = Ok again /\
    Library.books again = Library.books self.
Proof.
  destruct (init_ok f start Hinit) as (Hfile & Hload & _ & Hnext).
  assert (Hinv : (Library.writable (Library.books self) = true ->
                  Inv.reloads self) /\ Inv.numeric_ids self).
  { clear Hwritable. induction Hreach as [|self self' _ IH Hstep].
    - split; [intros _; unfold Inv.reloads; now rewrite Hfile|].
      apply get_next_id_numeric. eexists. exact Hnext.
    - destruct IH as [IH1 IH2]. split;
        [now apply (step_reloads self)|now apply (step_numeric self)]. }
  destruct Hinv as [Hreloads Hnumeric]. specialize (Hreloads Hwritable).
  split; [exact Hreloads|].
  apply get_next_id_numeric in Hnumeric. destruct Hnumeric as [n Hn].
  unfold Inv.reloads in Hreloads. unfold Library.init.
  destruct (Library.load_books (Library.storage_file self)) as [loaded out].
  simpl in Hreloads. subst loaded. cbn [rbind]. rewrite Hn. cbn [rbind].
  eexists. split; reflexivity.
Qed.

(** X13: when the construction returns and the ids of the books loaded
    are integers, the library holds the books of the file, the counter is
    1 for no book, and in every case it is above the id of every book
    loaded (ids that occur twice too). *)
Theorem init_counter_above (f : Library.file) (self : Library.t) (zs : list Z)
    (Hinit : Library.init f = Ok self)
    (Hids : map Py.as_int (map Book.id (Library.books self)) = map Some zs) :
  Library.storage_file self = f /\
  fst (Library.load_books f) = Ok (Library.books self) /\
  (Library.books self = [] -> Library.next_id self = 1) /\
  forall z, In z zs -> z < Library.next_id self.
Proof.
  destruct (init_ok f self Hinit) as (Hfile & Hload & _ & Hnext).
  split; [exact Hfile|]. split; [exact Hload|].
  apply as_int_ints in Hids.
  unfold Library.get_next_id in Hnext.
  destruct (Library.books self) as [|b bs].
  - injection Hnext as <-. split; [reflexivity|].
    simpl in Hids. injection Hids as <-. intros z [].
  - split; [discriminate|]. rewrite Hids in Hnext.
    destruct zs as [|z0 zs]; [discriminate|].
    injection Hnext as <-.
    intros z Hin. destruct (max_from_greatest zs z0) as [_ Hle].
    specialize (Hle z Hin). lia.
Qed.

(** *** What the books hold *)

Lemma valid_status_eq (new_status : string) :
  Library.valid_status new_status = true ->
  new_status = Book.available \/ new_status = Book.checked_out.
Proof.
  unfold Library.valid_status. intros H. apply orb_true_iff in H.
  destruct H as [H|H]; apply String.eqb_eq in H; [now left|now right].
Qed.

(** The books after one operation: the books before, with one book of
    [add_book] appended, or one book taken out, or one book given one of
    the two statuses. *)
Lemma step_books (self self' : Library.t) :
  Run.step self self' ->
  Library.books self' = Library.books self \/
  (exists title author n,
     0 < n /\
     Library.books self'
     = Library.books self ++
         [Book.init (VInt (Library.next_id self)) (VStr title) (VStr author)
                    (VInt n)]) \/
  (exists before book after,
     Library.books self = before ++ book :: after /\
     Library.books self' = before ++ after) \/
  (exists before book after new_status,
     Library.books self = before ++ book :: after /\
     (new_status = Book.available \/ new_status = Book.checked_out) /\
     Library.books self'
     = before ++ Book.set_status book (VStr new_status) :: after).
Proof.
  intros Hstep. destruct Hstep as [isdigit int now title author year self
                                  |book_id self|book_id new_status self].
  - rewrite add_book_eq. cbv zeta. cbn [snd].
    destruct (Spec.accepted isdigit int now year) as [n|] eqn:Hacc; [|now left].
    apply accepted_iff in Hacc. destruct Hacc as [_ [Hpos _]].
    right; left. exists title, author, n. split; [exact Hpos|reflexivity].
  - rewrite remove_book_eq. cbn [snd].
    destruct (Library.find_book book_id (Library.books self))
      as [[[before book] after]|] eqn:Hfind; [|now left].
    apply find_book_some in Hfind. destruct Hfind as (Hbooks & _).
    right; right; left. now exists before, book, after.
  - rewrite update_status_eq. cbv zeta. cbn [snd].
    destruct (Library.find_book book_id (Library.books self))
      as [[[before book] after]|] eqn:Hfind; [|now left].
    destruct (Library.valid_status new_status) eqn:Hvalid; [|now left].
    apply find_book_some in Hfind. destruct Hfind as (Hbooks & _).
    right; right; right. exists before, book, after, new_status.
    split; [exact Hbooks|]. split; [now apply valid_status_eq|reflexivity].
Qed.

(** X7: when every book of [start] has one of the two statuses, so has
    every book of every state reached from it: no operation writes any
    other status. *)
Theorem statuses_stay_valid (start self : Library.t)
    (Hstart : Inv.valid_statuses (Library.books start))
    (Hreach : Run.reachable start self) :
  Inv.valid_statuses (Library.books self).
Proof.
  induction Hreach as [|self self' _ IH Hstep]; [exact Hstart|].
  unfold Inv.valid_statuses in *.
  destruct (step_books self self' Hstep)
    as [Heq|[(title & author & n & _ & Heq)
            |[(before & book & after & Hself & Heq)
             |(before & book & after & s & Hself & Hs & Heq)]]];
    rewrite Heq; intros b Hin.
  - now apply IH.
  - apply in_app_or in Hin. destruct Hin as [Hin|[<-|[]]]; [now apply IH|].
    left; reflexivity.
  - apply IH. rewrite Hself. apply in_app_or in Hin. apply in_or_app.
    destruct Hin as [Hin|Hin]; [now left|right; now right].
  - apply in_app_or in Hin. destruct Hin as [Hin|[<-|Hin]].
    + apply IH. rewrite Hself. apply in_or_app. now left.
    + simpl. destruct Hs as [-> | ->]; [now left|now right].
    + apply IH. rewrite Hself. apply in_or_app. right. now right.
Qed.

(** X8: when the books of [start] are well formed (positive integer id,
    texts for title and author, positive integer year, one of the two
    statuses) and its counter is positive, the books of every state
    reached from it are well formed. *)
Theorem books_stay_well_formed (start self : Library.t)
    (Hstart : forall b, In b (Library.books start) -> Inv.well_formed b)
    (Hcounter : 0 < Library.next_id start)
    (Hreach : Run.reachable start self) :
  forall b, In b (Library.books self) -> Inv.well_formed b.
Proof.
  assert (Hinv : (forall b, In b (Library.books self) -> Inv.well_formed b) /\
                 0 < Library.next_id self).
  { induction Hreach as [|self self' _ IH Hstep]; [now split|].
    destruct IH as [IH Hpos]. split.
    - destruct (step_books self self' Hstep)
        as [Heq|[(title & author & n & Hyear & Heq)
                |[(before & book & after & Hself & Heq)
                 |(before & book & after & s & Hself & Hs & Heq)]]];
        rewrite Heq; intros b Hin.
      + now apply IH.
      + apply in_app_or in Hin. destruct Hin as [Hin|[<-|[]]]; [now apply IH|].
        unfold Inv.well_formed. simpl.
        split; [now exists (Library.next_id self)|].
        split; [now exists title|]. split; [now exists author|].
        split; [exists n; split; [reflexivity|lia]|now left].
      + apply IH. rewrite Hself. apply in_app_or in Hin. apply in_or_app.
        destruct Hin as [Hin|Hin]; [now left|right; now right].
      + apply in_app_or in Hin. destruct Hin as [Hin|[<-|Hin]].
        * apply IH. rewrite Hself. apply in_or_app. now left.
        * assert (Hbook : Inv.well_formed book).
          { apply IH. rewrite Hself. apply in_or_app. right. now left. }
          destruct Hbook as (Hi & Ht & Ha & Hy & _).
          unfold Inv.well_formed. simpl.
          repeat (split; [assumption|]).
          destruct Hs as [-> | ->]; [now left|now right].
        * apply IH. rewrite Hself. apply in_or_app. right. now right.
    - destruct (step_next_id self self' Hstep) as [-> | ->]; lia. }
  exact (proj1 Hinv).
Qed.

(** *** search_books, whatever the criteria *)

Section SearchMore.
Variable lower : string -> string.
Variable repr : value -> string.


(** *** The search of the menu *)

Lemma menu_criteria_in (title author year key : string) (v : value) :
  In (key, v) (Menu.criteria title author year) <->
  (key = "title" /\ v = VStr title /\ title <> "") \/
  (key = "author" /\ v = VStr author /\ author <> "") \/
  (key = "year" /\ v = VStr year /\ year <> "").
Proof.
  unfold Menu.criteria. rewrite in_map_iff. split.
  - intros ([k s] & [= <- <-] & Hin). apply filter_In in Hin.
    destruct Hin as [Hin Hs]. simpl in Hs. apply negb_true_iff in Hs.
    apply String.eqb_neq in Hs.
    destruct Hin as [[= <- <-]|[[= <- <-]|[[= <- <-]|[]]]]; tauto.
  - intros [(-> & -> & H)|[(-> & -> & H)|(-> & -> & H)]];
      [exists ("title", title)|exists ("author", author)|exists ("year", year)];
      (split; [reflexivity|]); apply filter_In;
      (split; [simpl; tauto|]); simpl; apply negb_true_iff;
      now apply String.eqb_neq.
Qed.

Lemma menu_criteria_fields (title author year : string) :
  forall kv, In kv (Menu.criteria title author year) -> In (fst kv) Spec.fields.
Proof.
  intros [key v] Hin. apply menu_criteria_in in Hin. unfold Spec.fields. simpl.
  destruct Hin as [(-> & _)|[(-> & _)|(-> & _)]]; tauto.
Qed.


End SearchMore.

(** *** load_books and from_dict at the edges *)

Lemma from_dict_raise (data : value) (e : exn) :
  Book.from_dict data = Raise e ->
  e = TypeError \/ exists key, In key Spec.fields /\ e = KeyError key.
Proof.
  unfold Book.from_dict, Py.subscript, Spec.fields.
  destruct data as [| | | | |d]; try (intros [= <-]; now left).
  intros H. right.
  destruct (dict_get_cases d "id") as [(i & _ & Hi)|[_ Hi]]; rewrite Hi in H;
    [|injection H as <-; exists "id"; simpl; tauto].
  destruct (dict_get_cases d "title") as [(t & _ & Ht)|[_ Ht]]; rewrite Ht in H;
    [|injection H as <-; exists "title"; simpl; tauto].
  destruct (dict_get_cases d "author") as [(a & _ & Ha)|[_ Ha]]; rewrite Ha in H;
    [|injection H as <-; exists "author"; simpl; tauto].
  destruct (dict_get_cases d "year") as [(y & _ & Hy)|[_ Hy]]; rewrite Hy in H;
    [|injection H as <-; exists "year"; simpl; tauto].
  destruct (dict_get_cases d "status") as [(s & _ & Hs)|[_ Hs]]; rewrite Hs in H;
    [discriminate|injection H as <-; exists "status"; simpl; tauto].
Qed.

Lemma rmap_from_dict_raise (items : list value) (e : exn) :
  rmap Book.from_dict items = Raise e ->
  e = TypeError \/ exists key, In key Spec.fields /\ e = KeyError key.
Proof.
  induction items as [|v items IH]; simpl; [discriminate|].
  destruct (Book.from_dict v) as [b|e'] eqn:Hv; simpl.
  - destruct (rmap Book.from_dict items) as [bs|e'']; simpl; [discriminate|].
    intros [= <-]. now apply IH.
  - intros [= <-]. now apply (from_dict_raise v).
Qed.

(** What [load_books] does with a file that holds JSON. *)
Lemma load_books_json (data : value) :
  Library.load_books (Library.Json data)
  = (rbind (Library.iterate data) (rmap Book.from_dict), []).
Proof.
  unfold Library.load_books. simpl.
  destruct (Library.iterate data) as [items|e] eqn:Hit; simpl.
  - destruct (rmap Book.from_dict items) as [bs|e] eqn:Hmap; [reflexivity|].
    apply rmap_from_dict_raise in Hmap.
    destruct Hmap as [->|(key & _ & ->)]; reflexivity.
  - destruct data; try discriminate; injection Hit as <-; reflexivity.
Qed.

(** X12: [load_books] never lets FileNotFoundError or JSONDecodeError
    out, and has printed nothing when it raises.  On a file that holds
    JSON it raises only TypeError or the KeyError of one of the five keys.
    The warning is printed exactly when reading the file raises
    JSONDecodeError. *)
Theorem load_books_raises (f : Library.file) :
  (forall e, fst (Library.load_books f) = Raise e ->
     e <> FileNotFoundError /\ e <> JSONDecodeError /\
     snd (Library.load_books f) = []) /\
  (forall data e,
     f = Library.Json data -> fst (Library.load_books f) = Raise e ->
     e = TypeError \/ exists key, In key Spec.fields /\ e = KeyError key) /\
  (snd (Library.load_books f) = [Library.MsgLoadError] <->
   Library.json_load f = Raise JSONDecodeError) /\
  (Library.json_load f <> Raise JSONDecodeError ->
   snd (Library.load_books f) = []).
Proof.
  destruct f as [| |data|e0].
  - split; [intros e H; discriminate H|].
    split; [intros data e H; discriminate H|].
    split; [split; discriminate|reflexivity].
  - split; [intros e H; discriminate H|].
    split; [intros data e H; discriminate H|].
    split; [split; reflexivity|]. intros H. now destruct H.
  - assert (Hraise : forall e,
              fst (Library.load_books (Library.Json data)) = Raise e ->
              e = TypeError \/ exists key, In key Spec.fields /\ e = KeyError key).
    { rewrite load_books_json. cbn [fst]. intros e H.
      destruct (Library.iterate data) as [items|e'] eqn:Hit; simpl in H.
      - now apply (rmap_from_dict_raise items).
      - injection H as <-. left.
        destruct data; try discriminate; injection Hit as <-; reflexivity. }
    split; [|split; [|split]].
    + intros e H. apply Hraise in H. rewrite load_books_json. cbn [snd].
      destruct H as [->|(key & _ & ->)]; repeat split; discriminate.
    + intros data' e _ H. now apply Hraise.
    + rewrite load_books_json. cbn [snd]. split; discriminate.
    + intros _. rewrite load_books_json. reflexivity.
  - split; [|split; [|split]].
    + destruct e0; simpl; intros e H; try discriminate H;
        injection H as <-; repeat split; discriminate.
    + intros data e H. discriminate H.
    + destruct e0; simpl; split; (discriminate || reflexivity).
    + destruct e0; simpl; intros H; try reflexivity. now destruct H.
Qed.

(** X11: a file whose JSON is not a list loads as an empty catalogue when
    it is the empty object or the empty text, and makes [load_books] raise
    TypeError in every other case (a number, null, true or false, a text
    or an object that is not empty). *)
Theorem load_books_not_a_list (data : value)
    (Hdata : forall l, data <> VList l) :
  (data = VStr "" \/ data = VDict [] ->
   Library.load_books (Library.Json data) = (Ok [], [])) /\
  (data <> VStr "" -> data <> VDict [] ->
   Library.load_books (Library.Json data) = (Raise TypeError, [])).
Proof.
  rewrite load_books_json. split.
  - intros [-> | ->]; reflexivity.
  - intros Hstr Hdict.
    destruct data as [| | |s|l|d]; try reflexivity.
    + destruct s as [|c s]; [now destruct Hstr|reflexivity].
    + now destruct (Hdata l).
    + destruct d as [|[k v] d]; [now destruct Hdict|reflexivity].
Qed.

Lemma from_dict_ok_get (d : list (string * value)) (book : Book.t) :
  Book.from_dict (VDict d) = Ok book ->
  Py.dict_get d "id" = Ok (Book.id book) /\
  Py.dict_get d "title" = Ok (Book.title book) /\
  Py.dict_get d "author" = Ok (Book.author book) /\
  Py.dict_get d "year" = Ok (Book.year book) /\
  Py.dict_get d "status" = Ok (Book.status book).
Proof.
  unfold Book.from_dict, Py.subscript.
  destruct (Py.dict_get d "id") as [i|]; [|discriminate].
  destruct (Py.dict_get d "title") as [t|]; [|discriminate].
  destruct (Py.dict_get d "author") as [a|]; [|discriminate].
  destruct (Py.dict_get d "year") as [y|]; [|discriminate].
  destruct (Py.dict_get d "status") as [s|]; [|discriminate].
  simpl. intros [= <-]. repeat split.
Qed.

(** X15: the dict [to_dict] makes of a book read by [from_dict] has the
    five keys and no other, in the order id, title, author, year, status,
    each with the value it had in the dict that was read: what else that
    dict held is dropped. *)
Theorem to_dict_from_dict (d : list (string * value)) (book : Book.t)
    (Hread : Book.from_dict (VDict d) = Ok book) :
  exists items,
    Book.to_dict book = VDict items /\
    map fst items = Spec.fields /\
    forall key, In key Spec.fields ->
      Py.dict_get items key = Py.dict_get d key.
Proof.
  apply from_dict_ok_get in Hread.
  destruct Hread as (Hi & Ht & Ha & Hy & Hs).
  eexists. split; [reflexivity|]. split; [reflexivity|].
  unfold Spec.fields. simpl.
  intros key [<-|[<-|[<-|[<-|[<-|[]]]]]]; simpl; congruence.
Qed.

(** *** How the operations compose *)

Lemma find_book_split (book_id : Z) (before after : list Book.t) (book : Book.t) :
  (forall b, In b before -> Py.eq_int (Book.id b) book_id = false) ->
  Py.eq_int (Book.id book) book_id = true ->
  Library.find_book book_id (before ++ book :: after)
  = Some (before, book, after).
Proof.
  intros Hbefore Hbook. induction before as [|b before IH]; simpl.
  - now rewrite Hbook.
  - rewrite (Hbefore b (or_introl eq_refl)). rewrite IH; [reflexivity|].
    intros b' Hin. apply Hbefore. now right.
Qed.

Lemma invariant_counter_free (self : Library.t) :
  Run.invariant self ->
  forall b, In b (Library.books self) ->
            Py.eq_int (Book.id b) (Library.next_id self) = false.
Proof.
  intros (zs & Hzs & _ & Hlt) b Hin. unfold Py.eq_int.
  destruct (ints_in _ zs (Book.id b) Hzs (in_map Book.id _ _ Hin))
    as (z & -> & Hz).
  apply Z.eqb_neq. specialize (Hlt z Hz). lia.
Qed.

Lemma max_from_app (z n : Z) (zs : list Z) :
  Library.max_from z (zs ++ [n]) = Z.max (Library.max_from z zs) n.
Proof. unfold Library.max_from. now rewrite fold_left_app. Qed.

Section Compose.
Variable isdigit : string -> bool.
Variable int : string -> option Z.

(** X16: in a library whose ids are distinct integers below the counter,
    adding a book and then removing the id it was given leaves the books
    as they were before the two calls, while the counter stays one higher:
    the id is not given again.  The file then holds these books when
    every text of theirs can be encoded, and a text that is not JSON when
    one cannot. *)
Theorem add_then_remove (self : Library.t) (now : Z) (title author year : string)
    (Hinv : Run.invariant self)
    (Hyear : fst (Library.validate_year isdigit int now year self) = Ok tt) :
  exists added removed,
    Library.add_book isdigit int now title author year self = (Ok tt, added) /\
    Library.remove_book (Library.next_id self) added = (Ok tt, removed) /\
    Library.books removed = Library.books self /\
    Library.next_id removed = Library.next_id self + 1 /\
    (Library.writable (Library.books self) = true ->
     Library.storage_file removed
     = Library.Json (VList (map Book.to_dict (Library.books self)))) /\
    (Library.writable (Library.books self) = false ->
     Library.storage_file removed = Library.Garbled).
Proof.
  apply validate_year_ok in Hyear. destruct Hyear as [n Hacc].
  eexists. eexists. rewrite add_book_eq, Hacc. cbv zeta.
  split; [reflexivity|]. rewrite remove_book_eq. cbn [Library.books].
  rewrite find_book_split;
    [|now apply invariant_counter_free|unfold Py.eq_int; simpl; apply Z.eqb_refl].
  rewrite app_nil_r. split; [reflexivity|].
  cbn [Library.books Library.next_id Library.storage_file].
  split; [reflexivity|]. split; [reflexivity|].
  destruct (saved_cases (Library.books self)) as [(Hw & -> & _)|(Hw & -> & _)];
    rewrite Hw; split; intros H; try discriminate H; reflexivity.
Qed.

(** X19: in a library whose ids are distinct integers below the counter,
    after an [add_book] that passed the validation the counter is what
    [get_next_id] computes from the books: one more than the id just
    given, which is the greatest. *)
Theorem add_book_counter (self : Library.t) (now : Z) (title author year : string)
    (Hinv : Run.invariant self)
    (Hyear : fst (Library.validate_year isdigit int now year self) = Ok tt) :
  exists added,
    Library.add_book isdigit int now title author year self = (Ok tt, added) /\
    Library.get_next_id (Library.books added) = Ok (Library.next_id added) /\
    Library.next_id added = Library.next_id self + 1 /\
    forall b, In b (Library.books self) ->
      exists z, Py.as_int (Book.id b) = Some z /\ z < Library.next_id self.
Proof.
  apply validate_year_ok in Hyear. destruct Hyear as [n Hacc].
  destruct Hinv as (zs & Hzs & _ & Hlt).
  eexists. rewrite add_book_eq, Hacc. cbv zeta.
  split; [reflexivity|]. cbn [Library.books Library.next_id].
  split; [|split; [reflexivity|]].
  - unfold Library.get_next_id.
    pose proof (numeric_add (Library.books self)
                  (Book.init (VInt (Library.next_id self)) (VStr title)
                             (VStr author) (VInt n))
                  (Library.next_id self) zs Hzs eq_refl) as Hnum.
    unfold Run.id_numbers in Hnum. rewrite Hnum.
    destruct (Library.books self) as [|b bs] eqn:Hbooks.
    + unfold Run.id_numbers in Hzs. simpl in Hzs. injection Hzs as <-.
      reflexivity.
    + destruct zs as [|z zs].
      * unfold Run.id_numbers in Hzs. simpl in Hzs.
        destruct (Py.as_int (Book.id b)); [|discriminate].
        destruct (Library.ints (map Book.id bs)); discriminate.
      * simpl. rewrite max_from_app.
        destruct (max_from_greatest zs z) as [Hin _].
        specialize (Hlt _ Hin). f_equal. lia.
  - intros b Hin. unfold Run.id_numbers in Hzs.
    destruct (ints_in _ zs (Book.id b) Hzs (in_map Book.id _ _ Hin))
      as (z & Hz & Hzin).
    exists z. split; [exact Hz|now apply Hlt].
Qed.

(** X18: a year that [validate_year] accepts is accepted in every later
    year of the clock as well. *)
Theorem validate_year_later (now later : Z) (year : string) (self : Library.t)
    (Hok : fst (Library.validate_year isdigit int now year self) = Ok tt)
    (Hlater : now <= later) :
  fst (Library.validate_year isdigit int later year self) = Ok tt.
Proof.
  apply validate_year_ok. apply validate_year_ok in Hok.
  destruct Hok as [n Hacc]. exists n.
  apply accepted_iff. apply accepted_iff in Hacc.
  destruct Hacc as [Hden Hr]. split; [exact Hden|lia].
Qed.


End Compose.

Lemma set_status_twice (book : Book.t) (s : value) :
  Book.set_status (Book.set_status book s) s = Book.set_status book s.
Proof. reflexivity. Qed.

(** X17: [update_status] called a second time with the same id and status
    changes nothing but what is printed: the books, the counter and the
    file are as after the first call. *)
Theorem update_status_twice (self : Library.t) (book_id : Z) (new_status : string) :
  Library.books (snd (Library.update_status book_id new_status
                        (snd (Library.update_status book_id new_status self))))
  = Library.books (snd (Library.update_status book_id new_status self)) /\
  Library.next_id (snd (Library.update_status book_id new_status
                          (snd (Library.update_status book_id new_status self))))
  = Library.next_id (snd (Library.update_status book_id new_status self)) /\
  Library.storage_file (snd (Library.update_status book_id new_status
                               (snd (Library.update_status book_id new_status self))))
  = Library.storage_file (snd (Library.update_status book_id new_status self)).
Proof.
  rewrite (update_status_eq book_id new_status self). cbv zeta. cbn [snd].
  destruct (Library.find_book book_id (Library.books self))
    as [[[before book] after]|] eqn:Hfind.
  - destruct (Library.valid_status new_status) eqn:Hvalid.
    + destruct (find_book_some _ _ _ _ _ Hfind) as (_ & Hbook & Hbefore).
      rewrite update_status_eq. cbv zeta. cbn [snd Library.books].
      rewrite (find_book_split book_id before after
                 (Book.set_status book (VStr new_status)) Hbefore Hbook).
      rewrite Hvalid, set_status_twice. repeat split.
    + set (once := Library.set_stdout self _).
      assert (Hbooks : Library.books once = Library.books self) by reflexivity.
      rewrite update_status_eq. cbn [snd]. rewrite Hbooks, Hfind, Hvalid.
      repeat split.
  - set (once := Library.set_stdout self _).
    assert (Hbooks : Library.books once = Library.books self) by reflexivity.
    rewrite update_status_eq. cbn [snd]. rewrite Hbooks, Hfind.
    repeat split.
Qed.

(** *** The further properties at the sample data *)

Lemma sample_no_7 :
  forall b, In b (Library.books Sample.library) -> Py.eq_int (Book.id b) 7 = false.
Proof. intros b [<-|[<-|[<-|[]]]]; reflexivity. Qed.

Lemma sample_has_5 :
  exists b, In b (Library.books Sample.library) /\ Py.eq_int (Book.id b) 5 = true.
Proof. exists Sample.ulysses. split; [simpl; tauto|reflexivity]. Qed.

Lemma sample_NoDup : NoDup [1; 5; 2].
Proof.
  repeat constructor; simpl; intros H; decompose [or] H;
    discriminate || assumption.
Qed.

Lemma sample_distinct : Run.distinct_ids (Library.books Sample.library).
Proof. exists [1; 5; 2]. split; [reflexivity|apply sample_NoDup]. Qed.

Lemma sample_invariant : Run.invariant Sample.library.
Proof.
  exists [1; 5; 2]. split; [reflexivity|]. split; [apply sample_NoDup|].
  simpl. intros z [<-|[<-|[<-|[]]]]; lia.
Qed.

Lemma sample_reachable : Run.reachable Sample.library Sample.later.
Proof.
  unfold Sample.later.
  eapply Run.reach_step; [eapply Run.reach_step; [apply Run.reach_start|]|].
  - apply Run.step_remove.
  - apply Run.step_add.
Qed.

Lemma sample_well_formed :
  forall b, In b (Library.books Sample.library) -> Inv.well_formed b.
Proof.
  intros b [<-|[<-|[<-|[]]]]; unfold Inv.well_formed; simpl;
    (split; [eexists; split; [reflexivity|lia]|]);
    (split; [eexists; reflexivity|]); (split; [eexists; reflexivity|]);
    (split; [eexists; split; [reflexivity|lia]|]); tauto.
Qed.

Lemma sample_statuses : Inv.valid_statuses (Library.books Sample.library).
Proof. intros b Hin. now apply sample_well_formed. Qed.

Lemma remove_book_unknown_witness :
  (forall b, In b (Library.books Sample.library) ->
             Py.eq_int (Book.id b) 7 = false) /\
  Library.remove_book 7 Sample.library
  = (Ok tt, Library.set_stdout Sample.library [Library.MsgNotFound 7]).
Proof.
  split; [exact sample_no_7|].
  exact (remove_book_unknown Sample.library 7 sample_no_7).
Defined.

Lemma remove_book_first_witness :
  (exists b, In b (Library.books Sample.library) /\
             Py.eq_int (Book.id b) 5 = true) /\
  exists self',
    Library.remove_book 5 Sample.library = (Ok tt, self') /\
    Library.books self' = [Sample.dune; Sample.emma] /\
    Library.next_id self' = 6 /\
    Library.storage_file self'
    = Library.Json (VList [Sample.dune_dict; Book.to_dict Sample.emma]).
Proof.
  split; [exact sample_has_5|].
  destruct (remove_book_first Sample.library 5 sample_has_5)
    as (before & book & after & self' & _ & _ & _ & Hremove & _ & Hnext & _).
  exists self'. split; [exact Hremove|].
  assert (Hself : self' = snd (Library.remove_book 5 Sample.library))
    by (rewrite Hremove; reflexivity).
  split; [rewrite Hself; reflexivity|].
  split; [rewrite Hnext; reflexivity|rewrite Hself; reflexivity].
Defined.

Lemma remove_book_gone_witness :
  Run.distinct_ids (Library.books Sample.library) /\
  Py.eq_int (Book.id Sample.emma) 5 = false.
Proof.
  split; [exact sample_distinct|].
  apply (remove_book_gone Sample.library 5 sample_distinct Sample.emma).
  simpl. tauto.
Defined.

Lemma next_id_never_decreases_witness :
  Run.reachable Sample.library Sample.later /\
  Library.next_id Sample.library <= Library.next_id Sample.later.
Proof.
  split; [exact sample_reachable|].
  exact (next_id_never_decreases Sample.library Sample.later sample_reachable).
Defined.

Lemma store_reloads_witness :
  Library.init Sample.stored = Ok Sample.library /\
  Run.reachable Sample.library Sample.later /\
  Library.writable (Library.books Sample.later) = true /\
  fst (Library.load_books (Library.storage_file Sample.later))
  = Ok (Library.books Sample.later) /\
  exists again,
    Library.init (Library.storage_file Sample.later) = Ok again /\
    Library.books again = Library.books Sample.later.
Proof.
  split; [reflexivity|]. split; [exact sample_reachable|].
  split; [reflexivity|].
  exact (store_reloads Sample.stored Sample.library Sample.later eq_refl
           sample_reachable eq_refl).
Defined.

Lemma statuses_stay_valid_witness :
  Inv.valid_statuses (Library.books Sample.library) /\
  Run.reachable Sample.library Sample.later /\
  Inv.valid_statuses (Library.books Sample.later).
Proof.
  split; [exact sample_statuses|]. split; [exact sample_reachable|].
  exact (statuses_stay_valid Sample.library Sample.later sample_statuses
           sample_reachable).
Defined.

Lemma books_stay_well_formed_witness :
  (forall b, In b (Library.books Sample.library) -> Inv.well_formed b) /\
  0 < Library.next_id Sample.library /\
  Run.reachable Sample.library Sample.later /\
  forall b, In b (Library.books Sample.later) -> Inv.well_formed b.
Proof.
  split; [exact sample_well_formed|]. split; [reflexivity|].
  split; [exact sample_reachable|].
  exact (books_stay_well_formed Sample.library Sample.later sample_well_formed
           eq_refl sample_reachable).
Defined.

Lemma load_books_not_a_list_witness :
  (forall l, VInt 3 <> VList l) /\
  Library.load_books (Library.Json (VInt 3)) = (Raise TypeError, []) /\
  Library.load_books (Library.Json (VDict [])) = (Ok [], []).
Proof.
  assert (H3 : forall l, VInt 3 <> VList l) by (intros l H; discriminate H).
  assert (Hd : forall l, VDict [] <> VList l) by (intros l H; discriminate H).
  split; [exact H3|]. split.
  - apply (proj2 (load_books_not_a_list (VInt 3) H3)); intros H; discriminate H.
  - apply (proj1 (load_books_not_a_list (VDict []) Hd)). now right.
Defined.

Lemma init_counter_above_witness :
  Library.init Sample.twice
  = Ok (Library.mk Sample.twice [Sample.dune; Sample.dune] 2 []) /\
  map Py.as_int (map Book.id [Sample.dune; Sample.dune]) = map Some [1; 1] /\
  forall z, In z [1; 1] -> z < 2.
Proof.
  split; [reflexivity|]. split; [reflexivity|].
  exact (proj2 (proj2 (proj2
           (init_counter_above Sample.twice
              (Library.mk Sample.twice [Sample.dune; Sample.dune] 2 [])
              [1; 1] eq_refl eq_refl)))).
Defined.


Lemma to_dict_from_dict_witness :
  Book.from_dict (VDict Shelf.annotated) = Ok Sample.dune /\
  exists items,
    Book.to_dict Sample.dune = VDict items /\
    map fst items = Spec.fields /\
    forall key, In key Spec.fields ->
      Py.dict_get items key = Py.dict_get Shelf.annotated key.
Proof.
  split; [reflexivity|].
  exact (to_dict_from_dict Shelf.annotated Sample.dune eq_refl).
Defined.

Lemma add_then_remove_witness :
  Run.invariant Sample.library /\
  fst (Library.validate_year Py.ascii_isdigit Py.ascii_int 2025 "1922"
         Sample.library) = Ok tt /\
  exists added removed,
    Library.add_book Py.ascii_isdigit Py.ascii_int 2025 "Ulysses" "Joyce" "1922"
      Sample.library = (Ok tt, added) /\
    Library.remove_book (Library.next_id Sample.library) added
    = (Ok tt, removed) /\
    Library.books removed = Library.books Sample.library /\
    Library.next_id removed = Library.next_id Sample.library + 1 /\
    Library.storage_file removed
    = Library.Json (VList (map Book.to_dict (Library.books Sample.library))).
Proof.
  split; [exact sample_invariant|]. split; [reflexivity|].
  destruct (add_then_remove Py.ascii_isdigit Py.ascii_int Sample.library 2025
              "Ulysses" "Joyce" "1922" sample_invariant eq_refl)
    as (added & removed & Hadd & Hremove & Hbooks & Hnext & Hfile & _).
  exists added, removed. split; [exact Hadd|]. split; [exact Hremove|].
  split; [exact Hbooks|]. split; [exact Hnext|]. exact (Hfile eq_refl).
Defined.

Lemma add_book_counter_witness :
  Run.invariant Sample.library /\
  fst (Library.validate_year Py.ascii_isdigit Py.ascii_int 2025 "1922"
         Sample.library) = Ok tt /\
  exists added,
    Library.add_book Py.ascii_isdigit Py.ascii_int 2025 "Ulysses" "Joyce" "1922"
      Sample.library = (Ok tt, added) /\
    Library.get_next_id (Library.books added) = Ok (Library.next_id added) /\
    Library.next_id added = 7.
Proof.
  split; [exact sample_invariant|]. split; [reflexivity|].
  destruct (add_book_counter Py.ascii_isdigit Py.ascii_int Sample.library 2025
              "Ulysses" "Joyce" "1922" sample_invariant eq_refl)
    as (added & Hadd & Hnext & Hcounter & _).
  exists added. split; [exact Hadd|]. split; [exact Hnext|].
  rewrite Hcounter. reflexivity.
Defined.

Lemma validate_year_later_witness :
  fst (Library.validate_year Py.ascii_isdigit Py.ascii_int 2000 "1999"
         Sample.library) = Ok tt /\
  2000 <= 2025 /\
  fst (Library.validate_year Py.ascii_isdigit Py.ascii_int 2025 "1999"
         Sample.library) = Ok tt.
Proof.
  assert (Hle : 2000 <= 2025) by lia.
  split; [reflexivity|]. split; [exact Hle|].
  exact (validate_year_later Py.ascii_isdigit Py.ascii_int 2000 2025 "1999"
           Sample.library eq_refl Hle).
Defined.

(** *** update_status on an id no book has *)

(** X20: for an id that no book has, [update_status] changes neither the
    books nor the counter nor the file, whatever the status asked for, and
    prints that the book is not found. *)
Theorem update_status_unknown (self : Library.t) (book_id : Z)
    (new_status : string)
    (Hnone : forall b, In b (Library.books self) ->
                       Py.eq_int (Book.id b) book_id = false) :
  Library.update_status book_id new_status self
  = (Ok tt, Library.set_stdout self
              (Library.stdout self ++ [Library.MsgNotFound book_id])).
Proof.
  rewrite update_status_eq.
  apply find_book_none in Hnone. now rewrite Hnone.
Qed.

Lemma update_status_unknown_witness :
  (forall b, In b (Library.books Sample.library) ->
             Py.eq_int (Book.id b) 7 = false) /\
  Library.update_status 7 Book.checked_out Sample.library
  = (Ok tt, Library.set_stdout Sample.library [Library.MsgNotFound 7]).
Proof.
  split; [exact sample_no_7|].
  exact (update_status_unknown Sample.library 7 Book.checked_out sample_no_7).
Defined.
